(** * video-downloader: URL classification, error recovery, VPN rotation
    and download bookkeeping

    A shallow embedding of the decision logic of [utilities.py] and
    [video_downloader.py], and the facts proved about it.

    Conventions of the model.
    - Python [str] values are Rocq strings over ASCII characters;
      [str.lower], the classes [\w] and [\s] and [str.strip] are the
      ASCII ones.
    - A call that may raise returns an [outcome]; a [try]/[except] is a
      case analysis on it.
    - What the outside world answers (the VPN client, the extraction
      engine, the directory listing, the browser page, the clock, the
      random source) is an explicit input, gathered in an [Env] record;
      what the code does to the outside world is a list of events.
    - Wall-clock times are integers, in microseconds; Python floats
      are taken as the exact rationals their literals denote.
    - [urllib.parse.urlparse] is modelled after CPython's
      implementation, as far as the scheme, the network location, the
      path and its parameters, the query and the fragment go. *)

From Stdlib Require Import String Ascii List ZArith Bool Lia QArith.
From Stdlib Require Import Numbers.DecimalString.
From Stdlib Require Import Lqa.
Import ListNotations.

Local Open Scope string_scope.
Local Open Scope Z_scope.

(* ===================================================================== *)
(** * Python string primitives *)
(* ===================================================================== *)

Module Py.

(** A character is a code point below 256; [code] is its number. *)
Definition code (c : ascii) : nat := nat_of_ascii c.

Definition between (lo hi : nat) (c : ascii) : bool :=
  (Nat.leb lo (code c) && Nat.leb (code c) hi)%bool.

(** The ASCII letters and digits. *)
Definition is_upper (c : ascii) : bool := between 65 90 c.
Definition is_lower (c : ascii) : bool := between 97 122 c.
Definition is_alpha (c : ascii) : bool := (is_upper c || is_lower c)%bool.
Definition is_digit (c : ascii) : bool := between 48 57 c.

(** [c.isalnum()]: the ASCII letters and digits and, of the code points
    from 128 to 255, the ordinal indicators (170, 186), the superscript
    digits (178, 179, 185), the micro sign (181), the fractions
    (188..190) and the letters (192..255 without the multiplication
    and the division sign, 215 and 247). *)
Definition is_alnum (c : ascii) : bool :=
  (is_alpha c || is_digit c
   || between 170 170 c || between 178 179 c || between 181 181 c
   || between 185 186 c || between 188 190 c
   || between 192 214 c || between 216 246 c || between 248 255 c)%bool.

(** [\w] of [re] on a [str]: the alphanumeric characters and the
    underscore. *)
Definition is_word (c : ascii) : bool :=
  (is_alnum c || Ascii.eqb c "_")%bool.

(** [\s] of [re] on a [str], [c.isspace()] and the characters removed by
    [str.strip()]: TAB, LF, VT, FF, CR, the separators FS..US, the
    space, the next-line control (133) and the no-break space (160). *)
Definition is_space (c : ascii) : bool :=
  (between 9 13 c || between 28 32 c || between 133 133 c || between 160 160 c)%bool.

(** [c.lower()]: the capital letters are A..Z and, above 127, the code
    points 192..222 without the multiplication sign (215); the small
    letter is 32 further on. *)
Definition lower_char (c : ascii) : ascii :=
  if (is_upper c || between 192 214 c || between 216 222 c)%bool
  then ascii_of_nat (code c + 32) else c.

(** [s.lower()] *)
Fixpoint lower (s : string) : string :=
  match s with
  | EmptyString => EmptyString
  | String c s' => String (lower_char c) (lower s')
  end.

(** [s.startswith(p)] *)
Fixpoint startswith (s p : string) : bool :=
  match p with
  | EmptyString => true
  | String a p' =>
      match s with
      | EmptyString => false
      | String b s' => (Ascii.eqb a b && startswith s' p')%bool
      end
  end.

(** [s.endswith(suf)]: some tail of [s] is [suf]. *)
Fixpoint endswith (s suf : string) : bool :=
  (String.eqb s suf ||
   match s with
   | EmptyString => false
   | String _ s' => endswith s' suf
   end)%bool.

(** [p in s] *)
Fixpoint str_in (p s : string) : bool :=
  (startswith s p ||
   match s with
   | EmptyString => false
   | String _ s' => str_in p s'
   end)%bool.

(** [c in s] for a single character. *)
Fixpoint char_in (c : ascii) (s : string) : bool :=
  match s with
  | EmptyString => false
  | String b s' => (Ascii.eqb c b || char_in c s')%bool
  end.

(** [s[:n]] and [s[n:]] *)
Fixpoint take (n : nat) (s : string) : string :=
  match n, s with
  | O, _ => EmptyString
  | S _, EmptyString => EmptyString
  | S n', String c s' => String c (take n' s')
  end.

Fixpoint drop (n : nat) (s : string) : string :=
  match n, s with
  | O, _ => s
  | S _, EmptyString => EmptyString
  | S n', String _ s' => drop n' s'
  end.

(** [s.replace(old, new)] for a non-empty [old]: occurrences are
    replaced from left to right without overlap.  [skip] counts the
    characters of a matched occurrence still to be passed over. *)
Fixpoint replace_from (old new s : string) (skip : nat) : string :=
  match s with
  | EmptyString => EmptyString
  | String c s' =>
      match skip with
      | S k => replace_from old new s' k
      | O =>
          if startswith s old
          then new ++ replace_from old new s' (String.length old - 1)
          else String c (replace_from old new s' O)
      end
  end.

Definition replace (s old new : string) : string :=
  replace_from old new s O.

(** [s.removeprefix(p)] *)
Definition removeprefix (s p : string) : string :=
  if startswith s p then drop (String.length p) s else s.

(** [s.partition(c)]: the text before and after the first [c]. *)
Fixpoint partition (c : ascii) (s : string) : option (string * string) :=
  match s with
  | EmptyString => None
  | String b s' =>
      if Ascii.eqb b c then Some (EmptyString, s')
      else match partition c s' with
           | Some (l, r) => Some (String b l, r)
           | None => None
           end
  end.

(** [s.rpartition(c)]: the text before and after the last [c]. *)
Fixpoint rpartition (c : ascii) (s : string) : option (string * string) :=
  match s with
  | EmptyString => None
  | String b s' =>
      match rpartition c s' with
      | Some (l, r) => Some (String b l, r)
      | None => if Ascii.eqb b c then Some (EmptyString, s') else None
      end
  end.

Fixpoint filter (f : ascii -> bool) (s : string) : string :=
  match s with
  | EmptyString => EmptyString
  | String c s' => if f c then String c (filter f s') else filter f s'
  end.

Fixpoint forallb (f : ascii -> bool) (s : string) : bool :=
  match s with
  | EmptyString => true
  | String c s' => (f c && forallb f s')%bool
  end.

(** [s.lstrip(...)] for a class of characters. *)
Fixpoint lstrip (f : ascii -> bool) (s : string) : string :=
  match s with
  | EmptyString => EmptyString
  | String c s' => if f c then lstrip f s' else s
  end.

(** [s.rstrip(...)]: a character is dropped when everything after it
    is dropped as well. *)
Fixpoint rstrip (f : ascii -> bool) (s : string) : string :=
  match s with
  | EmptyString => EmptyString
  | String c s' =>
      match rstrip f s' with
      | EmptyString => if f c then EmptyString else String c EmptyString
      | r => String c r
      end
  end.

(** [s.strip()] *)
Definition strip (s : string) : string := rstrip is_space (lstrip is_space s).

(** [str(n)] for an integer. *)
Definition str_of_int (n : Z) : string :=
  NilEmpty.string_of_int (Z.to_int n).

(** Membership of a string in a set literal. *)
Definition mem (x : string) (l : list string) : bool :=
  existsb (String.eqb x) l.

(** Truthiness of an [Optional[str]]: [None] and [''] are falsy. *)
Definition truthy (o : option string) : bool :=
  match o with
  | Some (String _ _) => true
  | _ => false
  end.

(** [d.get(key)] on a dict kept as a list of items. *)
Fixpoint lookup {V : Type} (key : string) (d : list (string * V)) : option V :=
  match d with
  | [] => None
  | (k, v) :: rest => if String.eqb key k then Some v else lookup key rest
  end.

(** Exceptions the modelled code meets, and the result of a call that
    may raise.  [ValueError], [TimeoutExpired] and [OtherException] are
    all subclasses of [Exception]. *)
Inductive exn :=
| ValueError (msg : string)
| TimeoutExpired
| OtherException (msg : string).

(** [str(e)] *)
Definition exn_str (e : exn) : string :=
  match e with
  | ValueError msg => msg
  | TimeoutExpired => "Command timed out"
  | OtherException msg => msg
  end.

Inductive outcome (A : Type) :=
| Returns (a : A)
| Raises (e : exn).

Arguments Returns {A} a.
Arguments Raises {A} e.

Definition bind {A B : Type} (m : outcome A) (k : A -> outcome B) : outcome B :=
  match m with
  | Returns a => k a
  | Raises e => Raises e
  end.

End Py.

Notation "x <- m ;; k" := (Py.bind m (fun x => k))
  (at level 61, m at next level, right associativity).

(* ===================================================================== *)
(** * utilities.py: ErrorRecovery *)
(* ===================================================================== *)

Module ErrorRecovery.

(** [self.error_patterns]; a dict literal iterates in insertion order,
    so the table is a list of (category, patterns) rows. *)
Definition error_patterns : list (string * list string) :=
  [ ("network_timeout", ["timeout"; "connection"; "network"]);
    ("video_not_found", ["not found"; "404"; "does not exist"]);
    ("access_denied",   ["403"; "forbidden"; "access denied"]);
    ("rate_limited",    ["rate limit"; "429"; "too many requests"]);
    ("login_required",  ["login"; "authentication"; "unauthorized"]) ].

(** [any(pattern in error_lower for pattern in patterns)] *)
Definition any_pattern_in (error_lower : string) (patterns : list string) : bool :=
  existsb (fun pattern => Py.str_in pattern error_lower) patterns.

(** The [for category, patterns in ...items()] loop with its early
    [return category]. *)
Fixpoint first_category (error_lower : string)
         (table : list (string * list string)) : option string :=
  match table with
  | [] => None
  | (category, patterns) :: rest =>
      if any_pattern_in error_lower patterns then Some category
      else first_category error_lower rest
  end.

Definition categorize_error (error_message : string) : string :=
  let error_lower := Py.lower error_message in
  match first_category error_lower error_patterns with
  | Some category => category
  | None => "unknown"
  end.

(** The six failure categories. *)
Definition categories : list string :=
  map fst error_patterns ++ ["unknown"].

(** Modelled from the spec: the recovery decision, of which the source
    shows the keys ['action'] and ['delay'] and the test suite the key
    ['change_ip'].  [action] is one of the four actions of the data
    model, [delay] is in seconds and absent for the rows without one,
    [change_ip] is the escalation flag of the decision table. *)
Inductive Action := retry_with_delay | retry_with_rotation | skip | abort.

Record RetryDecision := {
  action : Action;
  delay : option Z;
  change_ip : bool }.

(** The instance state set by [__init__]. *)
Record t := { max_retries : Z }.

(** [ErrorRecovery()] with the default [max_retries=3]. *)
Definition default : t := {| max_retries := 3 |}.

Section Decide.

(** The cap of the time-out delay: the source text of
    [suggest_recovery_action] ends inside [min(30 * attempt, 3...], after
    the first digit of the cap.  The test suite expects a delay of 30 at
    attempt 1, so the cap is at least 30; the facts below assume no
    more about it. *)
Variable delay_cap : Z.

(** Modelled from the spec: the [actions] table of
    [suggest_recovery_action], whose source text stops inside its first
    row.  The rows are those of the decision table of section 4.6; the
    first row is the one the source shows,
    ['network_timeout': {'action': 'retry_with_delay',
    'delay': min(30 * attempt, <cap>)]. *)
Definition actions (attempt : Z) : list (string * RetryDecision) :=
  [ ("network_timeout",
      {| action := retry_with_delay;
         delay := Some (Z.min (30 * attempt) delay_cap);
         change_ip := false |});
    ("rate_limited",
      {| action := retry_with_delay; delay := Some 120; change_ip := true |});
    ("access_denied",
      {| action := retry_with_rotation; delay := Some 60; change_ip := true |});
    ("login_required",
      {| action := skip; delay := None; change_ip := false |});
    ("video_not_found",
      {| action := skip; delay := None; change_ip := false |});
    ("unknown",
      {| action := retry_with_delay; delay := Some 60; change_ip := false |}) ].

(** Modelled from the spec: the body of
    [ErrorRecovery.suggest_recovery_action], missing from the source
    after its first lines.  Attempts beyond the ceiling [max_retries]
    resolve to [abort] whatever the category; otherwise the row of the
    category is returned ([None] for a key the table does not have). *)
Definition suggest_recovery_action (self : t) (error_category : string)
           (attempt : Z) : option RetryDecision :=
  if max_retries self <? attempt
  then Some {| action := abort; delay := None; change_ip := false |}
  else Py.lookup error_category (actions attempt).

End Decide.

End ErrorRecovery.

(* ===================================================================== *)
(** * urllib.parse, as far as the code uses it *)
(* ===================================================================== *)

Module UrlParse.

Import Py.

(** The six components returned by [urlparse]. *)
Record ParseResult := {
  scheme : string;
  netloc : string;
  path : string;
  params : string;
  query : string;
  fragment : string }.

Definition scheme_chars (c : ascii) : bool :=
  (is_alpha c || is_digit c || char_in c "+-.")%bool.

(** Leading C0 control characters and spaces are stripped, and TAB, CR
    and LF are removed anywhere. *)
Definition is_c0_or_space (c : ascii) : bool := Nat.leb (code c) 32.
Definition is_unsafe (c : ascii) : bool :=
  (Nat.eqb (code c) 9 || Nat.eqb (code c) 10 || Nat.eqb (code c) 13)%bool.

(** The longest prefix free of the characters of [stop], and the rest. *)
Fixpoint span_until (stop : string) (s : string) : string * string :=
  match s with
  | EmptyString => (EmptyString, EmptyString)
  | String c s' =>
      if char_in c stop then (EmptyString, s)
      else let (l, r) := span_until stop s' in (String c l, r)
  end.

(** [scheme, url = url[:i].lower(), url[i+1:]] when the text before the
    first colon is a scheme. *)
Definition split_scheme (url : string) : string * string :=
  match partition ":" url with
  | Some (String c0 _ as pre, rest) =>
      if (is_alpha c0 && forallb scheme_chars pre)%bool
      then (lower pre, rest) else (EmptyString, url)
  | _ => (EmptyString, url)
  end.

(** [_splitnetloc(url, 2)] after a leading [//]. *)
Definition split_netloc (url : string) : string * string :=
  if startswith url "//" then span_until "/?#" (drop 2 url)
  else (EmptyString, url).

Definition unbalanced_brackets (netloc : string) : bool :=
  ((char_in "[" netloc && negb (char_in "]" netloc)) ||
   (char_in "]" netloc && negb (char_in "[" netloc)))%bool.

(** [x, y = url.split(c, 1)] when [c in url]. *)
Definition split_once (c : ascii) (url : string) : string * string :=
  match partition c url with
  | Some (l, r) => (l, r)
  | None => (url, EmptyString)
  end.

(** [urlsplit(url)] of CPython's [urllib.parse], on ASCII text.  The
    validation of the text inside a bracketed host and the NFKC check of
    non-ASCII hosts are not part of the model. *)
Definition urlsplit (url : string)
  : outcome (string * string * string * string * string) :=
  let url := lstrip is_c0_or_space url in
  let url := filter (fun c => negb (is_unsafe c)) url in
  let (scheme, url) := split_scheme url in
  let (netloc, url) := split_netloc url in
  if unbalanced_brackets netloc then Raises (ValueError "Invalid IPv6 URL")
  else
    let (url, fragment) := split_once "#" url in
    let (url, query) := split_once "?" url in
    Returns (scheme, netloc, url, query, fragment).

Definition uses_params : list string :=
  [ ""; "ftp"; "hdl"; "prospero"; "http"; "imap"; "https"; "shttp"; "rtsp";
    "rtspu"; "sip"; "sips"; "mms"; "sftp"; "tel" ].

(** [_splitparams(url)]: the parameters of the last path segment. *)
Definition _splitparams (url : string) : string * string :=
  match rpartition "/" url with
  | Some (head, last) =>
      match partition ";" last with
      | Some (l, r) => (head ++ "/" ++ l, r)
      | None => (url, EmptyString)
      end
  | None => split_once ";" url
  end.

Definition urlparse (url : string) : outcome ParseResult :=
  match urlsplit url with
  | Raises e => Raises e
  | Returns (scheme, netloc, url, query, fragment) =>
      let (url, params) :=
        if (mem scheme uses_params && char_in ";" url)%bool
        then _splitparams url else (url, EmptyString) in
      Returns {| scheme := scheme; netloc := netloc; path := url;
                 params := params; query := query; fragment := fragment |}
  end.

(** [ParseResult.hostname]: the network location without user
    information and port, in lower case. *)
Definition hostname (p : ParseResult) : string :=
  let hostinfo :=
    match rpartition "@" (netloc p) with
    | Some (_, h) => h
    | None => netloc p
    end in
  match partition "[" hostinfo with
  | Some (_, bracketed) => lower (fst (split_once "]" bracketed))
  | None => lower (fst (split_once ":" hostinfo))
  end.

End UrlParse.

(* ===================================================================== *)
(** * utilities.py: VideoAnalyzer *)
(* ===================================================================== *)

Module VideoAnalyzer.

Import Py.

Definition video_extensions : list string :=
  [ ".mp4"; ".mkv"; ".avi"; ".mov"; ".wmv"; ".flv"; ".webm"; ".m4v" ].

Definition streaming_domains : list string :=
  [ "youtube.com"; "youtu.be"; "vimeo.com"; "dailymotion.com";
    "twitch.tv"; "facebook.com"; "instagram.com" ].

(** The analysis dict.  Every key but ['url'] may be missing: the two
    shapes [analyze_url] builds are the full analysis and the error
    report, and the report functions read the dicts with [.get]. *)
Record Analysis := {
  url : string;
  domain : option string;
  path : option string;
  is_direct_video : option bool;
  is_streaming_platform : option bool;
  requires_extraction : option bool;
  estimated_complexity : option string;
  suggested_method : option string;
  error : option string }.

Definition _is_direct_video_url (url : string) : outcome bool :=
  parsed <- UrlParse.urlparse url ;;
  let path := lower (UrlParse.path parsed) in
  Returns (existsb (fun ext => endswith path ext) video_extensions).

Definition _estimate_complexity (url domain : string) : outcome string :=
  direct <- _is_direct_video_url url ;;
  Returns (if direct then "low"
           else if mem domain streaming_domains then "medium"
           else "high").

Definition _suggest_extraction_method (url domain : string) : outcome string :=
  direct <- _is_direct_video_url url ;;
  Returns (if direct then "direct_download"
           else if mem domain streaming_domains then "yt_dlp"
           else "browser_automation").

(** The body of the [try] block of [analyze_url]. *)
Definition analyze_url_try (url : string) : outcome Analysis :=
  parsed <- UrlParse.urlparse url ;;
  let domain := replace (lower (UrlParse.netloc parsed)) "www." "" in
  direct <- _is_direct_video_url url ;;
  direct' <- _is_direct_video_url url ;;
  complexity <- _estimate_complexity url domain ;;
  method <- _suggest_extraction_method url domain ;;
  Returns {| url := url;
             domain := Some domain;
             path := Some (UrlParse.path parsed);
             is_direct_video := Some direct;
             is_streaming_platform := Some (mem domain streaming_domains);
             requires_extraction := Some (negb direct');
             estimated_complexity := Some complexity;
             suggested_method := Some method;
             error := None |}.

(** [analyze_url]: any exception of the body is turned into the dict
    [{'url': url, 'error': str(e)}]. *)
Definition analyze_url (url : string) : Analysis :=
  match analyze_url_try url with
  | Returns analysis => analysis
  | Raises e =>
      {| url := url; domain := None; path := None;
         is_direct_video := None; is_streaming_platform := None;
         requires_extraction := None; estimated_complexity := None;
         suggested_method := None; error := Some (exn_str e) |}
  end.

Definition batch_analyze (urls : list string) : list Analysis :=
  map analyze_url urls.

(** [success_weights] of [_estimate_success_probability]; Python floats
    are taken as the exact rationals their literals denote. *)
Definition success_weights : list (string * Q) :=
  [ ("direct_download", 95 # 100);
    ("yt_dlp", 85 # 100);
    ("browser_automation", 60 # 100) ]%Q.

(** [d.get(key, default)] *)
Definition dict_get {V : Type} (d : list (string * V)) (key : string)
           (default : V) : V :=
  match lookup key d with
  | Some v => v
  | None => default
  end.

(** [analysis.get('suggested_method', 'browser_automation')] *)
Definition method_of (analysis : Analysis) : string :=
  match suggested_method analysis with
  | Some m => m
  | None => "browser_automation"
  end.

(** The accumulation loop of [_estimate_success_probability]. *)
Fixpoint total_weight_from (acc : Q) (analyses : list Analysis) : Q :=
  match analyses with
  | [] => acc
  | analysis :: rest =>
      total_weight_from
        (acc + dict_get success_weights (method_of analysis) (50 # 100))%Q rest
  end.

Definition _estimate_success_probability (analyses : list Analysis) : Q :=
  match analyses with
  | [] => 0%Q
  | _ => (total_weight_from 0 analyses / inject_Z (Z.of_nat (List.length analyses)))%Q
  end.

(** [sum(1 for a in analyses if a.get(key, False))] *)
Definition count_flag (flag : Analysis -> option bool) (analyses : list Analysis) : Z :=
  Z.of_nat (List.length
    (List.filter (fun a => match flag a with Some b => b | None => false end)
                 analyses)).

(** [d[key] = d.get(key, 0) + 1] on a dict kept in insertion order. *)
Fixpoint incr (key : string) (d : list (string * Z)) : list (string * Z) :=
  match d with
  | [] => [(key, 1)]
  | (k, v) :: rest =>
      if String.eqb key k then (k, v + 1) :: rest else (k, v) :: incr key rest
  end.

Record Report := {
  total_urls : Z;
  direct_videos : Z;
  streaming_platforms : Z;
  complexity_distribution : list (string * Z);
  method_distribution : list (string * Z);
  success_probability : Q }.

Definition get_or (o : option string) (default : string) : string :=
  match o with Some s => s | None => default end.

Definition generate_analysis_report (analyses : list Analysis) : Report :=
  {| total_urls := Z.of_nat (List.length analyses);
     direct_videos := count_flag is_direct_video analyses;
     streaming_platforms := count_flag is_streaming_platform analyses;
     complexity_distribution :=
       fold_left (fun d a => incr (get_or (estimated_complexity a) "unknown") d)
                 analyses [];
     method_distribution :=
       fold_left (fun d a => incr (get_or (suggested_method a) "unknown") d)
                 analyses [];
     success_probability := _estimate_success_probability analyses |}.

(** The two tests of the rules, on a parsed URL: the lowered path ends
    in a video extension; the lowered network location, every ["www."]
    taken out, is a streaming domain. *)
Definition has_video_extension (parsed : UrlParse.ParseResult) : bool :=
  existsb (fun ext => endswith (lower (UrlParse.path parsed)) ext) video_extensions.

Definition domain_of (parsed : UrlParse.ParseResult) : string :=
  replace (lower (UrlParse.netloc parsed)) "www." "".

(** What an analysis says on the four classification keys. *)
Definition classified (a : Analysis) (direct streaming : bool)
           (complexity method : string) : Prop :=
  is_direct_video a = Some direct /\
  is_streaming_platform a = Some streaming /\
  estimated_complexity a = Some complexity /\
  suggested_method a = Some method.

(** ["www."] occurs in a network location at most as its leading
    prefix. *)
Definition www_at_most_leading (location : string) : Prop :=
  str_in "www." (removeprefix location "www.") = false.

(** The rules in the words of the specification: rule (b) tests the
    host of the URL with a leading ["www."] stripped. *)
Definition host_without_www_prefix (parsed : UrlParse.ParseResult) : string :=
  removeprefix (UrlParse.hostname parsed) "www.".

Definition rules_as_specified (url : string) : Prop :=
  forall parsed, UrlParse.urlparse url = Returns parsed ->
    let a := analyze_url url in
    if has_video_extension parsed then
      is_direct_video a = Some true /\
      estimated_complexity a = Some "low" /\
      suggested_method a = Some "direct_download"
    else if mem (host_without_www_prefix parsed) streaming_domains then
      is_streaming_platform a = Some true /\
      estimated_complexity a = Some "medium" /\
      suggested_method a = Some "yt_dlp"
    else
      estimated_complexity a = Some "high" /\
      suggested_method a = Some "browser_automation".




End VideoAnalyzer.

(* ===================================================================== *)
(** * video_downloader.py: configuration and data classes *)
(* ===================================================================== *)

Module SiteConfig.

Record t := {
  video_button : list string;
  download_link : list string;
  login_username : option string;
  login_password : option string;
  login_url : option string;
  login_username_field : string;
  login_password_field : string;
  login_submit_button : string;
  wait_after_login : Z;
  human_delay_min : Q;
  human_delay_max : Q }.

(** The field defaults of the model. *)
Definition default : t :=
  {| video_button := [];
     download_link := [];
     login_username := None;
     login_password := None;
     login_url := None;
     login_username_field := "input[name='username'], input[type='email']";
     login_password_field := "input[name='password'], input[type='password']";
     login_submit_button := "button[type='submit'], input[type='submit']";
     wait_after_login := 3;
     human_delay_min := 1;
     human_delay_max := 3 |}.

End SiteConfig.

Module GlobalConfig.

Record t := {
  sites : list (string * SiteConfig.t);
  output_directory : string;
  nordvpn_enabled : bool;
  ip_rotation_interval_min : Z;
  ip_rotation_interval_max : Z;
  headless : bool;
  timeout : Z;
  concurrent_downloads : Z;
  retry_attempts : Z;
  log_level : string }.

Definition default : t :=
  {| sites := [];
     output_directory := "./downloads";
     nordvpn_enabled := true;
     ip_rotation_interval_min := 300;
     ip_rotation_interval_max := 1800;
     headless := false;
     timeout := 30;
     concurrent_downloads := 3;
     retry_attempts := 3;
     log_level := "INFO" |}.

End GlobalConfig.

Module VideoInfo.

Record t := {
  url : string;
  title : string;
  duration : option Z;
  format_id : option string;
  filesize : option Z;
  quality : option string;
  direct_url : option string }.

End VideoInfo.

Module DownloadResult.

(** [download_time] is a difference of clock readings, kept in
    microseconds. *)
Record t := {
  url : string;
  success : bool;
  filepath : option string;
  error : option string;
  video_info : option VideoInfo.t;
  download_time : option Z }.

Definition failure (url error : string) : t :=
  {| url := url; success := false; filepath := None; error := Some error;
     video_info := None; download_time := None |}.

End DownloadResult.

(* ===================================================================== *)
(** * video_downloader.py: VPNManager *)
(* ===================================================================== *)

Module VPNManager.

Import Py.

(** The mutable state of the manager; [last_rotation] is a
    [datetime], kept as microseconds on the wall clock. *)
Record t := {
  enabled : bool;
  current_server : option string;
  last_rotation : Z }.

(** [VPNManager(enabled)], constructed when the clock reads [now]. *)
Definition init (enabled : bool) (now : Z) : t :=
  {| enabled := enabled; current_server := None; last_rotation := now |}.

(** What the manager does to the outside world. *)
Inductive event :=
| Run (cmd : string) (timeout : Z)   (* subprocess.run(cmd, ..., timeout=) *)
| Sleep (lo hi : Z).                 (* asyncio.sleep(random.uniform(lo, hi)) *)

Record CompletedProcess := {
  returncode : Z;
  stderr : string }.

(** What the outside world answers during one call: the index drawn by
    [random.choice], the results of the two [subprocess.run] calls, the
    readings of [datetime.now()] and the value of
    [random.randint(300, 1800)]. *)
Record Env := {
  choice : nat;
  connect_run : outcome CompletedProcess;
  disconnect_run : outcome CompletedProcess;
  now_rotate : Z;
  now_connected : Z;
  randint_300_1800 : Z }.

Definition countries : list string :=
  [ "US"; "DE"; "GB"; "NL"; "SE"; "CH"; "FR"; "CA" ].

Definition microseconds (seconds : Z) : Z := seconds * 1000000.

(** The [try] block of [connect_to_random_server]. *)
Definition connect_try (self : t) (env : Env) : outcome bool * t * list event :=
  let country := nth (Nat.modulo (choice env) (List.length countries)) countries "US" in
  let cmd := "nordvpn connect " ++ country in
  match connect_run env with
  | Raises e => (Raises e, self, [Run cmd 30])
  | Returns result =>
      if returncode result =? 0 then
        (Returns true,
         {| enabled := enabled self;
            current_server := Some country;
            last_rotation := now_connected env |},
         [Run cmd 30; Sleep 2 5])
      else (Returns false, self, [Run cmd 30])
  end.

(** [connect_to_random_server]: the handlers [except
    subprocess.TimeoutExpired] and [except Exception] around the [try]
    block.  The call of the client is where the block can fail; the log
    lines and the settle pause are taken not to, and signals outside
    [Exception] (an interrupt, the cancellation of the task) are not
    part of the model. *)
Definition connect_to_random_server (self : t) (env : Env)
  : outcome bool * t * list event :=
  if negb (enabled self) then (Returns true, self, [])
  else
    match connect_try self env with
    | (Raises TimeoutExpired, self', trace) => (Returns false, self', trace)
    | (Raises (ValueError _), self', trace)
    | (Raises (OtherException _), self', trace) => (Returns false, self', trace)
    | r => r
    end.

Definition disconnect (self : t) (env : Env) : outcome bool * t * list event :=
  if negb (enabled self) then (Returns true, self, [])
  else
    match disconnect_run env with
    | Returns result =>
        (Returns (returncode result =? 0), self, [Run "nordvpn disconnect" 15])
    | Raises _ => (Returns false, self, [Run "nordvpn disconnect" 15])
    end.

(** [rotate_if_needed]: [timedelta(minutes=r / 60)] is [r] seconds. *)
Definition rotate_if_needed (self : t) (force : bool) (env : Env)
  : outcome bool * t * list event :=
  if negb (enabled self) then (Returns true, self, [])
  else
    let time_since_rotation := now_rotate env - last_rotation self in
    let rotation_interval := microseconds (randint_300_1800 env) in
    if (force || (rotation_interval <? time_since_rotation))%bool then
      match disconnect self env with
      | (Raises e, self1, trace1) => (Raises e, self1, trace1)
      | (Returns _, self1, trace1) =>
          let '(r, self2, trace2) := connect_to_random_server self1 env in
          (r, self2, (trace1 ++ [Sleep 1 3] ++ trace2)%list)
      end
    else (Returns true, self, []).

(** The samples [random.randint(300, 1800)] can return. *)
Definition sample_in_range (env : Env) : Prop :=
  300 <= randint_300_1800 env <= 1800.

End VPNManager.

(* ===================================================================== *)
(** * fnmatch and pathlib, as far as [Path.glob] on one directory goes *)
(* ===================================================================== *)

Module Fnmatch.

Import Py.

(** What one position of a shell pattern accepts, the meaning of the
    pieces of the regular expression that [fnmatch.translate] builds. *)
Inductive item :=
| Star                      (* [*]: any run of characters *)
| AnyChar                   (* [?], and the negated empty class *)
| Never                     (* the empty class *)
| Literal (c : ascii)
| Class (negated : bool) (singles : string) (ranges : list (ascii * ascii)).

(** The text of a character class, when [s] is the pattern after a
    ["["]: an optional ["!"], an optional ["]"] that stands for itself,
    and what comes before the next ["]"].  [None] when no ["]"] closes
    the class. *)
Definition class_text (s : string) : option string :=
  let '(bang, s1) :=
    match s with String "!" r => ("!", r) | _ => ("", s) end in
  let '(bracket, s2) :=
    match s1 with String "]" r => ("]", r) | _ => ("", s1) end in
  match partition "]" s2 with
  | Some (body, _) => Some (bang ++ bracket ++ body)
  | None => None
  end.

(** The loop that cuts the text of a class at its range hyphens.
    [free] counts the characters that are passed without a test: the
    first of the class (two after a ["!"]) and the two after a range
    hyphen.  The last chunk comes out empty when the text ends on a
    range hyphen. *)
Fixpoint chunks_from (free : nat) (chunk : string) (s : string) : list string :=
  match s with
  | EmptyString => [chunk]
  | String c s' =>
      match free with
      | S f => chunks_from f (chunk ++ String c "") s'
      | O =>
          if Ascii.eqb c "-" then chunk :: chunks_from 2 "" s'
          else chunks_from 0 (chunk ++ String c "") s'
      end
  end.

(** [chunks[-1] += '-'] when the last chunk is empty. *)
Fixpoint close_chunks (chunks : list string) : list string :=
  match chunks with
  | [] => []
  | [a; EmptyString] => [a ++ "-"]
  | a :: rest => a :: close_chunks rest
  end.

Definition first_char (s : string) : option ascii :=
  match s with String c _ => Some c | EmptyString => None end.

Fixpoint last_char (s : string) : option ascii :=
  match s with
  | EmptyString => None
  | String c EmptyString => Some c
  | String _ s' => last_char s'
  end.

Fixpoint drop_last (s : string) : string :=
  match s with
  | EmptyString => EmptyString
  | String _ EmptyString => EmptyString
  | String c s' => String c (drop_last s')
  end.

(** The loop that removes the empty ranges, from the last chunk to the
    first: when the end of a chunk is above the start of the next one,
    the two end points are dropped and the chunks are joined.  No chunk
    is empty where the loop compares. *)
Fixpoint remove_empty_ranges (chunks : list string) : list string :=
  match chunks with
  | [] => []
  | a :: rest =>
      match remove_empty_ranges rest with
      | [] => [a]
      | b :: rest' =>
          match last_char a, first_char b with
          | Some x, Some y =>
              if Nat.ltb (code y) (code x)
              then (drop_last a ++ drop 1 b) :: rest'
              else a :: b :: rest'
          | _, _ => a :: b :: rest'
          end
      end
  end.

(** The chunks of the text of a class. *)
Definition chunks_of (stuff : string) : list string :=
  if negb (char_in "-" stuff) then [stuff]
  else
    let free := match stuff with String "!" _ => 2%nat | _ => 1%nat end in
    remove_empty_ranges (close_chunks (chunks_from free "" stuff)).

(** ['-'.join(chunks)], the escapes left out. *)
Fixpoint join (chunks : list string) : string :=
  match chunks with
  | [] => EmptyString
  | [a] => a
  | a :: rest => a ++ "-" ++ join rest
  end.

(** The ranges a regular expression reads in the joined chunks: from
    the end of a chunk to the start of the next one.  A hyphen that
    opens the set stands for itself. *)
Fixpoint ranges_of (chunks : list string) : list (ascii * ascii) :=
  match chunks with
  | a :: ((b :: _) as rest) =>
      match last_char a, first_char b with
      | Some x, Some y => (x, y) :: ranges_of rest
      | None, _ => ("-"%char, "-"%char) :: ranges_of rest
      | _, None => ranges_of rest
      end
  | _ => []
  end.

(** The meaning of the set built from the text of a class. *)
Definition class_of (stuff : string) : item :=
  let chunks := chunks_of stuff in
  match join chunks with
  | EmptyString => Never
  | String "!" EmptyString => AnyChar
  | String "!" _ =>
      let chunks' :=
        match chunks with
        | a :: rest => drop 1 a :: rest
        | [] => []
        end in
      Class true (String.concat "" chunks') (ranges_of chunks')
  | _ => Class false (String.concat "" chunks) (ranges_of chunks)
  end.

(** The main loop of [translate]; [skip] counts the characters of a
    class still to be passed over. *)
Fixpoint translate_from (pat : string) (skip : nat) : list item :=
  match pat with
  | EmptyString => []
  | String c rest =>
      match skip with
      | S k => translate_from rest k
      | O =>
          if Ascii.eqb c "*" then Star :: translate_from rest 0
          else if Ascii.eqb c "?" then AnyChar :: translate_from rest 0
          else if Ascii.eqb c "[" then
            match class_text rest with
            | None => Literal "[" :: translate_from rest 0
            | Some stuff =>
                class_of stuff :: translate_from rest (String.length stuff + 1)
            end
          else Literal c :: translate_from rest 0
      end
  end.

Definition translate (pat : string) : list item := translate_from pat 0.

Definition in_range (c : ascii) (r : ascii * ascii) : bool :=
  (Nat.leb (code (fst r)) (code c) && Nat.leb (code c) (code (snd r)))%bool.

(** One character against one item other than [Star]. *)
Definition accepts (i : item) (c : ascii) : bool :=
  match i with
  | Star => true
  | AnyChar => true
  | Never => false
  | Literal d => Ascii.eqb c d
  | Class negated singles ranges =>
      xorb negated (char_in c singles || existsb (in_range c) ranges)
  end.

(** The whole name against the items. *)
Fixpoint fullmatch (items : list item) (name : string) : bool :=
  match items with
  | [] => match name with EmptyString => true | _ => false end
  | Star :: items' =>
      (fix star (s : string) : bool :=
         (fullmatch items' s ||
          match s with
          | EmptyString => false
          | String _ s' => star s'
          end)%bool) name
  | i :: items' =>
      match name with
      | EmptyString => false
      | String c name' => (accepts i c && fullmatch items' name')%bool
      end
  end.

(** [re.compile(fnmatch.translate(pat)).fullmatch(name) is not None] *)
Definition fnmatchcase (name pat : string) : bool := fullmatch (translate pat) name.

End Fnmatch.

Module Pathlib.

Import Py.

(** [_is_wildcard_pattern(pat)] *)
Definition _is_wildcard_pattern (pat : string) : bool :=
  (char_in "*" pat || char_in "?" pat || char_in "[" pat)%bool.

(** [Path(dir) / name] *)
Definition child (dir name : string) : string := dir ++ "/" ++ name.

(** [list(Path(dir).glob(pattern))] for a pattern of one component, on
    a POSIX system, in a directory that holds the entries [names], in
    the order [os.scandir] lists them; CPython 3.9 to 3.12.  A pattern
    with a ["/"] in it, and ["**"], walk through other directories:
    they are outside the model, the answer is [None]. *)
Definition glob (dir : string) (names : list string) (pattern : string)
  : option (outcome (list string)) :=
  if (char_in "/" pattern || String.eqb pattern "**")%bool then None
  else if String.eqb pattern "" then
    Some (Raises (ValueError "Unacceptable pattern: ''"))
  else if String.eqb pattern "." then
    Some (Raises (OtherException "tuple index out of range"))
  else if str_in "**" pattern then
    Some (Raises (ValueError
                    "Invalid pattern: '**' can only be an entire path component"))
  else if _is_wildcard_pattern pattern then
    Some (Returns (map (child dir)
                       (List.filter (fun name => Fnmatch.fnmatchcase name pattern)
                                    names)))
  else if (String.eqb pattern ".." || mem pattern names)%bool then
    Some (Returns [child dir pattern])
  else Some (Returns []).

End Pathlib.

(* ===================================================================== *)
(** * video_downloader.py: VideoExtractor *)
(* ===================================================================== *)

Module VideoExtractor.

Import Py.

Record t := { output_dir : string }.

(** The character class of [re.sub(r'[^\w\s-]', '', title)]: what is
    kept. *)
Definition kept_in_title (c : ascii) : bool :=
  (is_word c || is_space c || Ascii.eqb c "-")%bool.

(** The character class [[-\s]] of the second substitution. *)
Definition is_separator (c : ascii) : bool :=
  (Ascii.eqb c "-" || is_space c)%bool.

(** [re.sub(r'[-\s]+', '-', s)]: every maximal run of separators becomes
    one hyphen.  [in_run] tells that the previous character was a
    separator. *)
Fixpoint collapse_from (in_run : bool) (s : string) : string :=
  match s with
  | EmptyString => EmptyString
  | String c s' =>
      if is_separator c
      then if in_run then collapse_from true s'
           else String "-" (collapse_from true s')
      else String c (collapse_from false s')
  end.

Definition collapse_separators (s : string) : string := collapse_from false s.

(** The characters a sanitised title is made of. *)
Definition word_or_hyphen (c : ascii) : bool :=
  (is_word c || Ascii.eqb c "-")%bool.

(** The two substitutions applied to a title. *)
Definition safe_title_of (title : string) : string :=
  let safe_title := strip (filter kept_in_title title) in
  collapse_separators safe_title.

(** [_get_safe_filename(url, title)]; [now] is the value of
    [int(time.time())].  There is no handler here: an exception of
    [urlparse] leaves the function. *)
Definition _get_safe_filename (url title : string) (now : Z) : outcome string :=
  parsed <- UrlParse.urlparse url ;;
  let domain := replace (UrlParse.netloc parsed) "www." "" in
  let filename :=
    match title with
    | String _ _ => domain ++ "_" ++ safe_title_of title
    | EmptyString => domain ++ "_" ++ str_of_int now
    end in
  Returns (take 100 filename).

(** [Path.name] and [Path.suffix]. *)
Definition path_name (p : string) : string :=
  match rpartition "/" p with
  | Some (_, name) => name
  | None => p
  end.

Definition suffix (p : string) : string :=
  match rpartition "." (path_name p) with
  | Some (String _ _, (String _ _ as ext)) => "." ++ ext
  | _ => EmptyString
  end.

Definition video_suffixes : list string := [ ".mp4"; ".mkv"; ".webm"; ".avi" ].

Definition is_video_file (f : string) : bool := mem (suffix f) video_suffixes.

(** What the outside world answers during one [download_video]:
    the result of [extract_video_info] (which returns [None] on any
    failure), the run of [ydl.download] on an output template, the
    paths [output_dir.glob(pattern)] lists once the engine has run (the
    call raises on a pattern it does not accept), and the readings of
    [time.time()]. *)
Record Env := {
  extract_video_info : string -> option VideoInfo.t;
  ydl_download : string -> string -> outcome unit;
  glob : string -> outcome (list string);
  time_start : Z;
  time_name : Z;
  time_end : Z }.

(** The file name chosen by [download_video]. *)
Definition chosen_filename (url : string) (custom_filename : option string)
           (video_info : VideoInfo.t) (env : Env) : outcome string :=
  match custom_filename with
  | Some (String _ _ as name) => Returns name
  | _ => _get_safe_filename url (VideoInfo.title video_info) (time_name env)
  end.

(** The [try] block of [download_video]. *)
Definition download_video_try (self : t) (env : Env) (url : string)
           (custom_filename : option string) : outcome DownloadResult.t :=
  match extract_video_info env url with
  | None =>
      Returns (DownloadResult.failure url "Keine Video-Informationen gefunden")
  | Some video_info =>
      filename <- chosen_filename url custom_filename video_info env ;;
      let output_path := output_dir self ++ "/" ++ filename ++ ".%(ext)s" in
      _ <- ydl_download env output_path url ;;
      downloaded_files <- glob env (filename ++ ".*") ;;
      let video_files := List.filter is_video_file downloaded_files in
      match video_files with
      | first :: _ =>
          Returns {| DownloadResult.url := url;
                     DownloadResult.success := true;
                     DownloadResult.filepath := Some first;
                     DownloadResult.error := None;
                     DownloadResult.video_info := Some video_info;
                     DownloadResult.download_time :=
                       Some (time_end env - time_start env) |}
      | [] => Returns (DownloadResult.failure url "Download-Datei nicht gefunden")
      end
  end.

Definition download_video (self : t) (env : Env) (url : string)
           (custom_filename : option string) : DownloadResult.t :=
  match download_video_try self env url custom_filename with
  | Returns result => result
  | Raises e =>
      DownloadResult.failure url ("Download fehlgeschlagen: " ++ exn_str e)
  end.


(** The network location with every ["www."] taken out, as
    [_get_safe_filename] computes it. *)
Definition domain_of (parsed : UrlParse.ParseResult) : string :=
  replace (UrlParse.netloc parsed) "www." "".


End VideoExtractor.

(* ===================================================================== *)
(** * video_downloader.py: WebVideoDownloader *)
(* ===================================================================== *)

Module WebVideoDownloader.

Import Py.

(** [self.vpn_manager = VPNManager(enabled=self.config.nordvpn_enabled)] *)
Definition make_vpn_manager (config : GlobalConfig.t) (now : Z) : VPNManager.t :=
  VPNManager.init (GlobalConfig.nordvpn_enabled config) now.

(** Interactions with the browser page and the pauses between them. *)
Inductive page_event :=
| Goto (url : string)
| Fill (selector value : string)
| HumanClick (selector : string)
| RandomDelay (min_seconds max_seconds : Q)
| Sleep (seconds : Z).

(** The page as the login step meets it: [page.url] when the step
    begins, which calls raise, and [page.url] once the pause after the
    submit is over. *)
Record Page := {
  page_url : string;
  raises : page_event -> option exn;
  url_after_login : string }.

(** A computation that may raise and records the interactions it
    performs. *)
Definition M (A : Type) : Type := list page_event -> outcome A * list page_event.

Definition ret {A : Type} (a : A) : M A := fun trace => (Returns a, trace).

Definition bindM {A B : Type} (m : M A) (k : A -> M B) : M B :=
  fun trace =>
    match m trace with
    | (Returns a, trace') => k a trace'
    | (Raises e, trace') => (Raises e, trace')
    end.

(** A page primitive: recorded, and it raises when the page says so. *)
Definition perform (page : Page) (ev : page_event) : M unit :=
  fun trace =>
    match raises page ev with
    | Some e => (Raises e, (trace ++ [ev])%list)
    | None => (Returns tt, (trace ++ [ev])%list)
    end.

(** A step that cannot raise: the pauses, and [human_click], which
    catches its own exceptions and returns a flag. *)
Definition quiet (ev : page_event) : M unit :=
  fun trace => (Returns tt, (trace ++ [ev])%list).

Definition when (b : bool) (m : M unit) : M unit := if b then m else ret tt.

(** A computation that touches nothing on the page and may raise. *)
Definition lift {A : Type} (o : outcome A) : M A := fun trace => (o, trace).

Notation "m >>> k" := (bindM m (fun _ => k)) (at level 62, right associativity).

(** The [try] block of [_handle_login], for a configured pair.  The
    log line that closes it formats [urlparse(page.url).netloc], so an
    exception of [urlparse] is raised inside the block. *)
Definition login_steps (page : Page) (site_config : SiteConfig.t)
           (username password : string) : M bool :=
  let login_url :=
    match SiteConfig.login_url site_config with
    | Some (String _ _ as u) => u
    | _ => page_url page
    end in
  when (negb (String.eqb (page_url page) login_url))
       (perform page (Goto login_url) >>> quiet (RandomDelay 1 3)) >>>
  perform page (Fill (SiteConfig.login_username_field site_config) username) >>>
  quiet (RandomDelay (1 # 2) 1) >>>
  perform page (Fill (SiteConfig.login_password_field site_config) password) >>>
  quiet (RandomDelay (1 # 2) 1) >>>
  quiet (HumanClick (SiteConfig.login_submit_button site_config)) >>>
  quiet (Sleep (SiteConfig.wait_after_login site_config)) >>>
  lift (UrlParse.urlparse (url_after_login page)) >>>
  ret true.

(** [_handle_login(page, site_config)]: the flag it returns and the
    interactions it performed. *)
Definition _handle_login (page : Page) (site_config : SiteConfig.t)
  : outcome bool * list page_event :=
  match SiteConfig.login_username site_config,
        SiteConfig.login_password site_config with
  | Some (String _ _ as username), Some (String _ _ as password) =>
      match login_steps page site_config username password [] with
      | (Returns b, trace) => (Returns b, trace)
      | (Raises _, trace) => (Returns false, trace)
      end
  | _, _ => (Returns true, [])
  end.

(** A profile carries a credential pair when both fields are present. *)
Definition has_credential_pair (site_config : SiteConfig.t) : Prop :=
  exists username password,
    SiteConfig.login_username site_config = Some username /\
    SiteConfig.login_password site_config = Some password.

(** A configuration whose rotation bounds are 10 and 20 seconds, all
    else as by default. *)
Definition short_rotation_config : GlobalConfig.t :=
  {| GlobalConfig.sites := [];
     GlobalConfig.output_directory := "./downloads";
     GlobalConfig.nordvpn_enabled := true;
     GlobalConfig.ip_rotation_interval_min := 10;
     GlobalConfig.ip_rotation_interval_max := 20;
     GlobalConfig.headless := false;
     GlobalConfig.timeout := 30;
     GlobalConfig.concurrent_downloads := 3;
     GlobalConfig.retry_attempts := 3;
     GlobalConfig.log_level := "INFO" |}.

End WebVideoDownloader.

(* ===================================================================== *)
(** * video_downloader.py: HumanBehaviorSimulator *)
(* ===================================================================== *)

Module HumanBehaviorSimulator.

Import Py.

(** What the simulator does to the page and to the clock. *)
Inductive event :=
| WaitForSelector (selector : string) (timeout_ms : Z)
| ScrollIntoView (selector : string)
| Hover (selector : string)
| Click (selector : string)
| Evaluate (script : string)
| RandomDelay (min_seconds max_seconds : Q)   (* random_delay(min, max) *)
| Sleep (seconds : Q).                        (* asyncio.sleep(seconds) *)

(** The page as the simulator meets it: whether a selector yields an
    element, and which calls raise; and the draws of the random source
    during [simulate_reading]. *)
Record Env := {
  found : string -> bool;
  raises : event -> option exn;
  reading_time : Q;               (* random.uniform(min_time, max_time) *)
  scroll_times : nat;             (* random.randint(1, 3) *)
  scroll_distance : nat -> Z }.   (* random.randint(100, 500), per round *)

Definition M (A : Type) : Type := list event -> outcome A * list event.

Definition ret {A : Type} (a : A) : M A := fun trace => (Returns a, trace).

Definition bindM {A B : Type} (m : M A) (k : A -> M B) : M B :=
  fun trace =>
    match m trace with
    | (Returns a, trace') => k a trace'
    | (Raises e, trace') => (Raises e, trace')
    end.

(** A call on the page: recorded, and it raises when the page says so. *)
Definition perform (env : Env) (ev : event) : M unit :=
  fun trace =>
    match raises env ev with
    | Some e => (Raises e, (trace ++ [ev])%list)
    | None => (Returns tt, (trace ++ [ev])%list)
    end.

(** A pause: recorded, it does not raise. *)
Definition pause (ev : event) : M unit :=
  fun trace => (Returns tt, (trace ++ [ev])%list).

Notation "m >>> k" := (bindM m (fun _ => k)) (at level 62, right associativity).

(** The [try] block of [human_click]. *)
Definition human_click_try (env : Env) (selector : string) : M bool :=
  perform env (WaitForSelector selector 10000) >>>
  if negb (found env selector) then ret false
  else
    perform env (ScrollIntoView selector) >>>
    pause (RandomDelay (1 # 2) 1) >>>
    perform env (Hover selector) >>>
    pause (RandomDelay (3 # 10) (8 # 10)) >>>
    perform env (Click selector) >>>
    pause (RandomDelay 1 2) >>>
    ret true.

(** [human_click(page, selector)]: any exception gives [False]. *)
Definition human_click (env : Env) (selector : string)
  : outcome bool * list event :=
  match human_click_try env selector [] with
  | (Returns b, trace) => (Returns b, trace)
  | (Raises _, trace) => (Returns false, trace)
  end.

(** The loop [for _ in range(scroll_times)] of [simulate_reading];
    [round] numbers the rounds already made. *)
Fixpoint reading_rounds (env : Env) (share : Q) (rounds : nat) (round : nat)
  : M unit :=
  match rounds with
  | O => ret tt
  | S rounds' =>
      pause (Sleep share) >>>
      perform env (Evaluate ("window.scrollBy(0, "
                             ++ str_of_int (scroll_distance env round) ++ ")")) >>>
      reading_rounds env share rounds' (S round)
  end.

(** [simulate_reading(page, min_time, max_time)]; there is no handler,
    an exception of [page.evaluate] leaves the function. *)
Definition simulate_reading (env : Env) : outcome unit * list event :=
  let share :=
    (reading_time env / inject_Z (Z.of_nat (scroll_times env) + 1))%Q in
  reading_rounds env share (scroll_times env) O [].

(** The seconds slept in a trace, the pauses of random length left
    out. *)
Fixpoint slept (trace : list event) : Q :=
  match trace with
  | [] => 0%Q
  | Sleep seconds :: rest => (seconds + slept rest)%Q
  | _ :: rest => slept rest
  end.

Definition is_evaluate (ev : event) : bool :=
  match ev with Evaluate _ => true | _ => false end.

End HumanBehaviorSimulator.

(* ===================================================================== *)
(** * utilities.py: PerformanceMonitor *)
(* ===================================================================== *)

Module PerformanceMetrics.

Record t := {
  timestamp : Z;
  cpu_percent : Q;
  memory_mb : Q;
  network_bytes_sent : Z;
  network_bytes_recv : Z;
  disk_io_read : Z;
  disk_io_write : Z;
  active_downloads : Z;
  download_speed_mbps : Q }.

End PerformanceMetrics.

Module PerformanceMonitor.

Import Py.

(** The state that matters: the history of the metrics. *)
Record t := { metrics_history : list PerformanceMetrics.t }.

(** [PerformanceMonitor()] *)
Definition init : t := {| metrics_history := [] |}.

(** What [psutil] reports in one capture. *)
Record Sample := {
  cpu : Q;
  memory_used : Z;
  bytes_sent : Z;
  bytes_recv : Z;
  read_bytes : Z;
  write_bytes : Z }.

(** The world of one capture: the four [psutil] reads, any of which may
    raise, and the reading of [datetime.now()]. *)
Record Env := {
  psutil : outcome Sample;
  now : Z }.

(** [l[-n:]] for a positive [n]. *)
Definition last_n {A : Type} (n : nat) (l : list A) : list A :=
  skipn (List.length l - n) l.

Definition capture_metrics (self : t) (env : Env) (active_downloads : Z)
  : PerformanceMetrics.t * t :=
  match psutil env with
  | Returns sample =>
      let metrics :=
        {| PerformanceMetrics.timestamp := now env;
           PerformanceMetrics.cpu_percent := cpu sample;
           PerformanceMetrics.memory_mb :=
             (inject_Z (memory_used sample) / 1024 / 1024)%Q;
           PerformanceMetrics.network_bytes_sent := bytes_sent sample;
           PerformanceMetrics.network_bytes_recv := bytes_recv sample;
           PerformanceMetrics.disk_io_read := read_bytes sample;
           PerformanceMetrics.disk_io_write := write_bytes sample;
           PerformanceMetrics.active_downloads := active_downloads;
           PerformanceMetrics.download_speed_mbps := 0 |} in
      let history := (metrics_history self ++ [metrics])%list in
      let history :=
        if Nat.ltb 1000 (List.length history) then last_n 1000 history
        else history in
      (metrics, {| metrics_history := history |})
  | Raises _ =>
      ({| PerformanceMetrics.timestamp := now env;
          PerformanceMetrics.cpu_percent := 0;
          PerformanceMetrics.memory_mb := 0;
          PerformanceMetrics.network_bytes_sent := 0;
          PerformanceMetrics.network_bytes_recv := 0;
          PerformanceMetrics.disk_io_read := 0;
          PerformanceMetrics.disk_io_write := 0;
          PerformanceMetrics.active_downloads := active_downloads;
          PerformanceMetrics.download_speed_mbps := 0 |},
       self)
  end.

(** A run of captures, each with its world and its number of active
    downloads. *)
Definition captures (calls : list (Env * Z)) (self : t) : t :=
  fold_left (fun monitor call => snd (capture_metrics monitor (fst call) (snd call)))
            calls self.

(** The metrics of the captures of a run that did not fail. *)
Definition captured (calls : list (Env * Z)) : list PerformanceMetrics.t :=
  flat_map (fun call =>
              match psutil (fst call) with
              | Returns _ => [fst (capture_metrics init (fst call) (snd call))]
              | Raises _ => []
              end) calls.

(** The dict [get_average_metrics] returns when it is not empty. *)
Record Averages := {
  avg_cpu_percent : Q;
  avg_memory_mb : Q;
  max_active_downloads : Z;
  total_metrics_count : Z }.

(** [sum(f(m) for m in ms)] and [max(f(m) for m in ms)] of a non-empty
    sequence. *)
Definition sum_of (f : PerformanceMetrics.t -> Q) (ms : list PerformanceMetrics.t) : Q :=
  fold_left (fun acc m => (acc + f m)%Q) ms 0%Q.

Definition max_of (f : PerformanceMetrics.t -> Z) (first : PerformanceMetrics.t)
           (rest : list PerformanceMetrics.t) : Z :=
  fold_left (fun best m => if best <? f m then f m else best) rest (f first).

(** [get_average_metrics(minutes)], asked when the clock reads
    [now]; [None] is the empty dict. *)
Definition get_average_metrics (self : t) (now : Z) (minutes : Z) : option Averages :=
  let cutoff_time := now - minutes * 60 * 1000000 in
  let recent_metrics :=
    List.filter (fun m => cutoff_time <=? PerformanceMetrics.timestamp m)
                (metrics_history self) in
  match recent_metrics with
  | [] => None
  | first :: rest =>
      let n := inject_Z (Z.of_nat (List.length recent_metrics)) in
      Some {| avg_cpu_percent :=
                (sum_of PerformanceMetrics.cpu_percent recent_metrics / n)%Q;
              avg_memory_mb :=
                (sum_of PerformanceMetrics.memory_mb recent_metrics / n)%Q;
              max_active_downloads :=
                max_of PerformanceMetrics.active_downloads first rest;
              total_metrics_count := Z.of_nat (List.length recent_metrics) |}
  end.

End PerformanceMonitor.

(* ===================================================================== *)
(** * utilities.py: RichDisplay *)
(* ===================================================================== *)

Module RichDisplay.

Import Py.

Definition upper_char (c : ascii) : ascii :=
  if is_lower c then ascii_of_nat (code c - 32) else c.

(** [s.title()]: a letter after a character that is no letter is put in
    upper case, every other letter in lower case. *)
Fixpoint title_from (after_letter : bool) (s : string) : string :=
  match s with
  | EmptyString => EmptyString
  | String c s' =>
      if is_alpha c
      then String (if after_letter then lower_char c else upper_char c)
                  (title_from true s')
      else String c (title_from false s')
  end.

Definition title (s : string) : string := title_from false s.

(** The URL cell: [url[:37] + "..." if len(url) > 40 else url]. *)
Definition url_cell (url : string) : string :=
  if Nat.ltb 40 (String.length url) then take 37 url ++ "..." else url.

Definition flag (o : option bool) : bool :=
  match o with Some b => b | None => false end.

(** The row [display_analysis_results] adds for an analysis: URL,
    domain, type, complexity, method. *)
Definition analysis_row (analysis : VideoAnalyzer.Analysis)
  : string * string * string * string * string :=
  let url := VideoAnalyzer.url analysis in
  let domain := VideoAnalyzer.get_or (VideoAnalyzer.domain analysis) "N/A" in
  let video_type :=
    if flag (VideoAnalyzer.is_direct_video analysis) then "Direkt" else "Extraction" in
  let video_type :=
    if flag (VideoAnalyzer.is_streaming_platform analysis) then "Streaming"
    else video_type in
  let complexity :=
    title (VideoAnalyzer.get_or (VideoAnalyzer.estimated_complexity analysis) "Unknown") in
  let method :=
    title (replace (VideoAnalyzer.get_or (VideoAnalyzer.suggested_method analysis)
                      "Unknown") "_" " ") in
  (url_cell url, domain, video_type, complexity, method).

(** The lines of [display_progress_summary], before their formatting:
    the two counts and the success rate in percent. *)
Inductive printed :=
| Successful (n : Z)
| Failed (n : Z)
| SuccessRate (percent : Q).

(** [a / b] on integers. *)
Definition truediv (a b : Z) : outcome Q :=
  if b =? 0 then Raises (OtherException "division by zero")
  else Returns (inject_Z a / inject_Z b)%Q.

(** [display_progress_summary(results)]; there is no handler, the
    division by the number of results is made after the two counts are
    printed. *)
Definition display_progress_summary (results : list DownloadResult.t)
  : outcome unit * list printed :=
  let successful :=
    Z.of_nat (List.length (List.filter DownloadResult.success results)) in
  let failed := Z.of_nat (List.length results) - successful in
  match truediv successful (Z.of_nat (List.length results)) with
  | Raises e => (Raises e, [Successful successful; Failed failed])
  | Returns rate =>
      (Returns tt, [Successful successful; Failed failed; SuccessRate (rate * 100)%Q])
  end.

End RichDisplay.

(* ===================================================================== *)
(** * cli.py and example_usage.py: reading URLs at the prompt *)
(* ===================================================================== *)

Module Prompt.

Import Py.

(** What a call of [input("URL: ")] does: it returns a line or raises
    [KeyboardInterrupt]; when the input is exhausted it raises
    [EOFError]. *)
Inductive input_event :=
| Line (text : string)
| KeyboardInterrupt.

(** [url.startswith(('http://', 'https://'))] *)
Definition has_http_scheme (url : string) : bool :=
  (startswith url "http://" || startswith url "https://")%bool.

(** [VideoDownloaderDemo.interactive_mode]: the interrupt is caught
    inside the loop and ends it. *)
Fixpoint interactive_mode (inputs : list input_event) (urls : list string)
  : outcome (list string) :=
  match inputs with
  | [] => Raises (OtherException "EOF when reading a line")
  | KeyboardInterrupt :: _ => Returns urls
  | Line text :: rest =>
      let url := strip text in
      match url with
      | EmptyString => Returns urls
      | _ =>
          if has_http_scheme url
          then interactive_mode rest (urls ++ [url])%list
          else interactive_mode rest urls
      end
  end.

(** The prompt of the [analyze] command of [cli.py]: the interrupt is
    caught around the loop and ends the command ([None]). *)
Fixpoint analyze_prompt (inputs : list input_event) (url_list : list string)
  : outcome (option (list string)) :=
  match inputs with
  | [] => Raises (OtherException "EOF when reading a line")
  | KeyboardInterrupt :: _ => Returns None
  | Line text :: rest =>
      let url := strip text in
      match url with
      | EmptyString => Returns (Some url_list)
      | _ =>
          if has_http_scheme url
          then analyze_prompt rest (url_list ++ [url])%list
          else analyze_prompt rest url_list
      end
  end.

(** No line of the input is blank. *)
Definition no_blank_line (inputs : list input_event) : Prop :=
  forall text, In (Line text) inputs -> strip text <> EmptyString.

End Prompt.

(* ===================================================================== *)
(** * setup.py and cli.py: the check of the Python version *)
(* ===================================================================== *)

Module VersionCheck.

(** [sys.version_info], its three numbers. *)
Record version_info := { major : Z; minor : Z; micro : Z }.

(** [setup.check_python_version]:
    [version.major == 3 and version.minor >= 9]. *)
Definition check_python_version (version : version_info) : bool :=
  ((major version =? 3) && (9 <=? minor version))%bool.

(** [a >= b] on tuples of integers: the first difference decides, and a
    tuple is at least each of its prefixes. *)
Fixpoint tuple_ge (a b : list Z) : bool :=
  match a, b with
  | _, [] => true
  | [], _ :: _ => false
  | x :: a', y :: b' =>
      if x =? y then tuple_ge a' b' else y <? x
  end.

(** [doctor] of [cli.py]: [sys.version_info >= (3, 9)]; the comparison
    is decided before the release level of the version is reached. *)
Definition python_ok (version : version_info) : bool :=
  tuple_ge [major version; minor version; micro version] [3; 9].

End VersionCheck.

(* ===================================================================== *)
(** * video_downloader.py: the site profile of a URL *)
(* ===================================================================== *)

Module SiteProfiles.

Import Py.

(** [WebVideoDownloader._get_site_config(url)]: [self.config.sites.get]
    on the network location with every ["www."] removed; there is no
    handler for an exception of [urlparse]. *)
Definition _get_site_config (config : GlobalConfig.t) (url : string)
  : outcome (option SiteConfig.t) :=
  parsed <- UrlParse.urlparse url ;;
  let domain := replace (UrlParse.netloc parsed) "www." "" in
  Returns (lookup domain (GlobalConfig.sites config)).

End SiteProfiles.

(* ===================================================================== *)
(** * Facts about the string primitives *)
(* ===================================================================== *)

Import Py.

Lemma lower_char_eqb (a b : ascii) :
  Ascii.eqb a b = true -> Ascii.eqb (lower_char a) (lower_char b) = true.
Proof.
  intros H. apply Ascii.eqb_eq in H. subst b. apply Ascii.eqb_refl.
Qed.

Lemma startswith_lower (s p : string) :
  startswith s p = true -> startswith (lower s) (lower p) = true.
Proof.
  revert s. induction p as [|a p IH]; intros s H; [now destruct s|].
  destruct s as [|b s]; simpl in *; [discriminate|].
  apply andb_true_iff in H. destruct H as [Hab Hrest].
  rewrite (lower_char_eqb _ _ Hab). simpl. now apply IH.
Qed.

Lemma str_in_lower (p s : string) :
  str_in p s = true -> str_in (lower p) (lower s) = true.
Proof.
  induction s as [|b s IH]; intros H.
  - destruct p; simpl in *; [reflexivity|discriminate].
  - cbn [str_in] in H. apply orb_true_iff in H. cbn [lower str_in].
    apply orb_true_iff. destruct H as [H|H].
    + left. apply (startswith_lower (String b s) p H).
    + right. now apply IH.
Qed.



(** What [str.replace] does to a text in which the old text does not
    occur, and to a leading ["www."]. *)
Lemma replace_absent (old new s : string) :
  str_in old s = false -> replace s old new = s.
Proof.
  unfold replace. induction s as [|c s IH]; intros H; [reflexivity|].
  cbn [str_in] in H. apply orb_false_iff in H. destruct H as [Hhere Hlater].
  cbn [replace_from]. rewrite Hhere. now rewrite (IH Hlater).
Qed.

Lemma replace_leading_www (s : string) :
  startswith s "www." = true ->
  replace s "www." "" = replace (drop 4 s) "www." "".
Proof.
  intros H. pose proof H as Hlead.
  destruct s as [|a [|b [|c [|d rest]]]]; cbn [startswith] in H;
    repeat match type of H with
           | context [Ascii.eqb ?x ?y] => destruct (Ascii.eqb x y); cbn [andb] in H
           end; try discriminate H.
  unfold replace.
  change (replace_from "www." "" (String a (String b (String c (String d rest)))) 0)
    with (if startswith (String a (String b (String c (String d rest)))) "www."
          then "" ++ replace_from "www." "" rest 0
          else String a (replace_from "www." ""
                           (String b (String c (String d rest))) 0)).
  now rewrite Hlead.
Qed.

(* ===================================================================== *)
(** * ErrorRecovery: the failure classifier *)
(* ===================================================================== *)

Section CategorizeError.

Import ErrorRecovery.

Lemma first_category_in (e : string) (table : list (string * list string)) (c : string) :
  first_category e table = Some c -> In c (map fst table).
Proof.
  induction table as [|[cat pats] rest IH]; simpl; [discriminate|].
  destruct (any_pattern_in e pats).
  - intros [= <-]. now left.
  - intros H. right. now apply IH.
Qed.

Lemma first_category_none (e : string) (table : list (string * list string)) :
  (forall cat pats, In (cat, pats) table -> any_pattern_in e pats = false) ->
  first_category e table = None.
Proof.
  induction table as [|[cat pats] rest IH]; simpl; intros H; [reflexivity|].
  rewrite (H cat pats) by now left.
  apply IH. intros c p Hin. apply (H c p). now right.
Qed.

Lemma first_category_first (e : string) (before after : list (string * list string))
      (cat : string) (pats : list string) :
  (forall row, In row before -> any_pattern_in e (snd row) = false) ->
  any_pattern_in e pats = true ->
  first_category e (before ++ (cat, pats) :: after) = Some cat.
Proof.
  induction before as [|[c p] before IH]; simpl; intros Hb Hp.
  - now rewrite Hp.
  - pose proof (Hb (c, p) (or_introl eq_refl)) as Hcp. simpl in Hcp. rewrite Hcp.
    apply IH; [|exact Hp]. intros row Hin. apply Hb. now right.
Qed.

Lemma categories_nodup : NoDup categories.
Proof.
  unfold categories; simpl.
  repeat (constructor; [simpl; intuition discriminate|]). constructor.
Qed.

End CategorizeError.

(** C2: [categorize_error] returns, for every message, one of the six
    pairwise different categories; it returns ['unknown'] when no
    pattern of the table occurs in the lowered message; the first row of
    the table (in table order) with a pattern that occurs decides the
    category; so a message containing both ['timeout'] and
    ['rate limit'] is classified as ['network_timeout']. *)
Theorem categorize_error_total_first_match (error_message : string) :
  In (ErrorRecovery.categorize_error error_message) ErrorRecovery.categories /\
  (NoDup ErrorRecovery.categories /\ List.length ErrorRecovery.categories = 6%nat) /\
  ((forall category patterns,
       In (category, patterns) ErrorRecovery.error_patterns ->
       ErrorRecovery.any_pattern_in (lower error_message) patterns = false) ->
   ErrorRecovery.categorize_error error_message = "unknown") /\
  (forall before category patterns after,
      ErrorRecovery.error_patterns = (before ++ (category, patterns) :: after)%list ->
      (forall row, In row before ->
                   ErrorRecovery.any_pattern_in (lower error_message) (snd row) = false) ->
      ErrorRecovery.any_pattern_in (lower error_message) patterns = true ->
      ErrorRecovery.categorize_error error_message = category) /\
  (str_in "timeout" error_message = true ->
   str_in "rate limit" error_message = true ->
   ErrorRecovery.categorize_error error_message = "network_timeout").
Proof.
  repeat split.
  - unfold ErrorRecovery.categorize_error, ErrorRecovery.categories.
    destruct (ErrorRecovery.first_category _ _) eqn:E.
    + apply in_or_app. left. now apply first_category_in in E.
    + apply in_or_app. right. now left.
  - apply categories_nodup.
  - intros H. unfold ErrorRecovery.categorize_error.
    now rewrite (first_category_none _ _ H).
  - intros before category patterns after Htab Hbefore Hpat.
    unfold ErrorRecovery.categorize_error. rewrite Htab.
    now rewrite (first_category_first _ _ _ _ _ Hbefore Hpat).
  - intros Ht _. apply str_in_lower in Ht.
    unfold ErrorRecovery.categorize_error.
    change ErrorRecovery.error_patterns
      with ([] ++ ("network_timeout", ["timeout"; "connection"; "network"])
               :: tl ErrorRecovery.error_patterns)%list.
    rewrite first_category_first; [reflexivity| intros ? [] |].
    unfold ErrorRecovery.any_pattern_in. cbn [existsb].
    change (lower "timeout") with "timeout" in Ht. now rewrite Ht.
Qed.

Lemma categorize_error_total_first_match_witness :
  str_in "timeout" "gateway timeout, rate limit reached" = true /\
  str_in "rate limit" "gateway timeout, rate limit reached" = true /\
  ErrorRecovery.categorize_error "gateway timeout, rate limit reached"
  = "network_timeout".
Proof.
  split; [reflexivity|]. split; [reflexivity|].
  apply (categorize_error_total_first_match
           "gateway timeout, rate limit reached"); reflexivity.
Defined.

(** The scenarios of the test suite and of the specification. *)
Example categorize_error_scenarios :
  ErrorRecovery.categorize_error "Connection timeout after 30 seconds" = "network_timeout" /\
  ErrorRecovery.categorize_error "Rate limit exceeded" = "rate_limited" /\
  ErrorRecovery.categorize_error "Access forbidden" = "access_denied" /\
  ErrorRecovery.categorize_error "429 Too Many Requests" = "rate_limited" /\
  ErrorRecovery.categorize_error "Download-Datei nicht gefunden" = "unknown".
Proof. repeat split. Qed.

(* ===================================================================== *)
(** * ErrorRecovery: the retry policy *)
(* ===================================================================== *)

Lemma min_30_attempt_1 (delay_cap : Z) : 30 <= delay_cap -> Z.min (30 * 1) delay_cap = 30.
Proof. intros H. lia. Qed.

(** C3: within the retry ceiling, [suggest_recovery_action] returns the
    row of the decision table: a time-out is retried after
    [min(30 * attempt, cap)] seconds, which is 30 seconds at attempt 1;
    a rate limit after 120 seconds with a change of address; a refusal
    of access is retried with rotation after 60 seconds with a change of
    address; a required login and a missing video are skipped; an
    unknown failure is retried after 60 seconds.  The two scenarios of
    the specification follow from the classifier. *)
Theorem suggest_recovery_action_table
        (delay_cap : Z) (self : ErrorRecovery.t) (attempt : Z) :
  30 <= delay_cap ->
  attempt <= ErrorRecovery.max_retries self ->
  let decide := fun category =>
    ErrorRecovery.suggest_recovery_action delay_cap self category attempt in
  let row := fun a d ip =>
    Some {| ErrorRecovery.action := a; ErrorRecovery.delay := d;
            ErrorRecovery.change_ip := ip |} in
  decide "network_timeout"
    = row ErrorRecovery.retry_with_delay (Some (Z.min (30 * attempt) delay_cap)) false /\
  (attempt = 1 ->
   decide "network_timeout" = row ErrorRecovery.retry_with_delay (Some 30) false /\
   decide (ErrorRecovery.categorize_error "Connection timeout after 30 seconds")
     = row ErrorRecovery.retry_with_delay (Some 30) false) /\
  decide "rate_limited" = row ErrorRecovery.retry_with_delay (Some 120) true /\
  decide (ErrorRecovery.categorize_error "429 Too Many Requests")
    = row ErrorRecovery.retry_with_delay (Some 120) true /\
  decide "access_denied" = row ErrorRecovery.retry_with_rotation (Some 60) true /\
  decide "login_required" = row ErrorRecovery.skip None false /\
  decide "video_not_found" = row ErrorRecovery.skip None false /\
  decide "unknown" = row ErrorRecovery.retry_with_delay (Some 60) false.
Proof.
  intros Hcap Hattempt decide row. subst decide row. cbv beta.
  change (ErrorRecovery.categorize_error "Connection timeout after 30 seconds")
    with "network_timeout".
  change (ErrorRecovery.categorize_error "429 Too Many Requests")
    with "rate_limited".
  unfold ErrorRecovery.suggest_recovery_action.
  assert (Hle : (ErrorRecovery.max_retries self <? attempt) = false)
    by (apply Z.ltb_ge; exact Hattempt).
  rewrite Hle. cbn [ErrorRecovery.actions lookup String.eqb Ascii.eqb Bool.eqb].
  split; [reflexivity|]. split; [|repeat split].
  intros ->. rewrite (min_30_attempt_1 _ Hcap). split; reflexivity.
Qed.

Lemma suggest_recovery_action_table_witness :
  ErrorRecovery.suggest_recovery_action 300 ErrorRecovery.default
    (ErrorRecovery.categorize_error "Connection timeout after 30 seconds") 1
  = Some {| ErrorRecovery.action := ErrorRecovery.retry_with_delay;
            ErrorRecovery.delay := Some 30;
            ErrorRecovery.change_ip := false |}.
Proof.
  assert (Hcap : 30 <= 300) by lia.
  assert (Hattempt : 1 <= ErrorRecovery.max_retries ErrorRecovery.default)
    by (simpl; lia).
  exact (proj2 (proj1 (proj2
           (suggest_recovery_action_table 300 ErrorRecovery.default 1 Hcap Hattempt))
           eq_refl)).
Defined.

(** C4: beyond the retry ceiling [max_retries] the decision is [abort],
    for every category and every cap of the delay. *)
Theorem suggest_recovery_action_abort_beyond_ceiling
        (delay_cap : Z) (self : ErrorRecovery.t) (category : string) (n : Z) :
  ErrorRecovery.max_retries self < n ->
  exists decision,
    ErrorRecovery.suggest_recovery_action delay_cap self category n = Some decision /\
    ErrorRecovery.action decision = ErrorRecovery.abort.
Proof.
  intros Hn. unfold ErrorRecovery.suggest_recovery_action.
  apply Z.ltb_lt in Hn. rewrite Hn. eexists. split; reflexivity.
Qed.

Lemma suggest_recovery_action_abort_beyond_ceiling_witness :
  exists decision,
    ErrorRecovery.suggest_recovery_action 300 ErrorRecovery.default "rate_limited" 4
      = Some decision /\
    ErrorRecovery.action decision = ErrorRecovery.abort.
Proof.
  apply (suggest_recovery_action_abort_beyond_ceiling 300 ErrorRecovery.default
           "rate_limited" 4).
  simpl. lia.
Defined.

(* ===================================================================== *)
(** * VideoAnalyzer: the URL classifier *)
(* ===================================================================== *)

(** With ["www."] at most leading, removing every occurrence removes
    the prefix. *)
Lemma replace_www_at_most_leading (location : string) :
  VideoAnalyzer.www_at_most_leading location ->
  replace location "www." "" = removeprefix location "www.".
Proof.
  unfold VideoAnalyzer.www_at_most_leading, removeprefix. intros H.
  destruct (startswith location "www.") eqn:Hlead.
  - rewrite (replace_leading_www _ Hlead). now apply replace_absent.
  - now apply replace_absent.
Qed.

(** The analysis [analyze_url] builds, rule by rule, in terms of the
    domain it computes. *)
Lemma analyze_url_exact (url : string) :
  match UrlParse.urlparse url with
  | Returns parsed =>
      let a := VideoAnalyzer.analyze_url url in
      let domain := VideoAnalyzer.domain_of parsed in
      VideoAnalyzer.domain a = Some domain /\
      VideoAnalyzer.error a = None /\
      if VideoAnalyzer.has_video_extension parsed then
        VideoAnalyzer.classified a true
          (mem domain VideoAnalyzer.streaming_domains) "low" "direct_download"
      else if mem domain VideoAnalyzer.streaming_domains then
        VideoAnalyzer.classified a false true "medium" "yt_dlp"
      else
        VideoAnalyzer.classified a false false "high" "browser_automation"
  | Raises e =>
      let a := VideoAnalyzer.analyze_url url in
      VideoAnalyzer.error a = Some (exn_str e) /\
      VideoAnalyzer.estimated_complexity a = None /\
      VideoAnalyzer.suggested_method a = None
  end.
Proof.
  unfold VideoAnalyzer.analyze_url, VideoAnalyzer.analyze_url_try,
    VideoAnalyzer._estimate_complexity, VideoAnalyzer._suggest_extraction_method,
    VideoAnalyzer._is_direct_video_url.
  destruct (UrlParse.urlparse url) as [parsed|e]; cbn [bind].
  - fold (VideoAnalyzer.has_video_extension parsed).
    fold (VideoAnalyzer.domain_of parsed).
    unfold VideoAnalyzer.classified.
    destruct (VideoAnalyzer.has_video_extension parsed);
      destruct (mem (VideoAnalyzer.domain_of parsed) VideoAnalyzer.streaming_domains) eqn:E;
      cbn; rewrite ?E; repeat split; reflexivity.
  - repeat split.
Qed.

(** C1, as amended: for a URL that [urlparse] accepts, [analyze_url]
    applies its rules in order.  (a) When the lowered path ends in one
    of the video extensions, the analysis is a direct video of low
    complexity with the direct-download method.  Otherwise, for a
    network location in which ["www."] occurs at most as the leading
    prefix: (b) when the lowered network location (the host together
    with any user information and port), its leading ["www."] stripped,
    is a streaming domain, the analysis is a streaming platform of
    medium complexity with the [yt_dlp] method; (c) else the complexity
    is high and the method is browser automation.  For a URL that
    [urlparse] rejects the result is the error report, which carries no
    classification. *)
Theorem analyze_url_rules (url : string) :
  let a := VideoAnalyzer.analyze_url url in
  (forall parsed,
      UrlParse.urlparse url = Returns parsed ->
      let location := lower (UrlParse.netloc parsed) in
      (VideoAnalyzer.has_video_extension parsed = true ->
       VideoAnalyzer.is_direct_video a = Some true /\
       VideoAnalyzer.estimated_complexity a = Some "low" /\
       VideoAnalyzer.suggested_method a = Some "direct_download") /\
      (VideoAnalyzer.has_video_extension parsed = false ->
       VideoAnalyzer.www_at_most_leading location ->
       if mem (removeprefix location "www.") VideoAnalyzer.streaming_domains then
         VideoAnalyzer.classified a false true "medium" "yt_dlp"
       else
         VideoAnalyzer.classified a false false "high" "browser_automation")) /\
  (forall e,
      UrlParse.urlparse url = Raises e ->
      VideoAnalyzer.error a = Some (exn_str e) /\
      VideoAnalyzer.estimated_complexity a = None /\
      VideoAnalyzer.suggested_method a = None).
Proof.
  intros a. subst a. pose proof (analyze_url_exact url) as H. split.
  - intros parsed Hparsed location. rewrite Hparsed in H. cbv zeta in H.
    destruct H as (_ & _ & H). split.
    + intros Hext. rewrite Hext in H. destruct H as (Hd & _ & Hc & Hm).
      now repeat split.
    + intros Hext Hwww. rewrite Hext in H.
      unfold VideoAnalyzer.domain_of in H. fold location in H.
      now rewrite (replace_www_at_most_leading location Hwww) in H.
  - intros e He. rewrite He in H. exact H.
Qed.

Lemma analyze_url_rules_witness :
  VideoAnalyzer.classified
    (VideoAnalyzer.analyze_url "https://www.youtube.com/watch?v=abc123")
    false true "medium" "yt_dlp".
Proof.
  refine (proj2 (proj1 (analyze_url_rules "https://www.youtube.com/watch?v=abc123")
                       {| UrlParse.scheme := "https";
                          UrlParse.netloc := "www.youtube.com";
                          UrlParse.path := "/watch";
                          UrlParse.params := "";
                          UrlParse.query := "v=abc123";
                          UrlParse.fragment := "" |} eq_refl) eq_refl eq_refl).
Defined.

(** C1 fails as stated: the host of [https://youtube.com:443/watch] is
    the streaming domain [youtube.com], so the rules as specified give
    medium complexity and [yt_dlp]; the code tests the network location
    [youtube.com:443], which is not in the set, and answers high
    complexity with browser automation. *)
Lemma analyze_url_port_counterexample :
  ~ VideoAnalyzer.rules_as_specified "https://youtube.com:443/watch".
Proof.
  intros H. specialize (H _ eq_refl). vm_compute in H.
  destruct H as [H _]. discriminate H.
Qed.

(** What the code answers there, and for a URL that [urlparse] rejects:
    an error report without classification. *)
Example analyze_url_port_and_error :
  VideoAnalyzer.classified (VideoAnalyzer.analyze_url "https://youtube.com:443/watch")
    false false "high" "browser_automation" /\
  VideoAnalyzer.analyze_url "http://[::1/x"
  = {| VideoAnalyzer.url := "http://[::1/x";
       VideoAnalyzer.domain := None;
       VideoAnalyzer.path := None;
       VideoAnalyzer.is_direct_video := None;
       VideoAnalyzer.is_streaming_platform := None;
       VideoAnalyzer.requires_extraction := None;
       VideoAnalyzer.estimated_complexity := None;
       VideoAnalyzer.suggested_method := None;
       VideoAnalyzer.error := Some "Invalid IPv6 URL" |}.
Proof. repeat split. Qed.

(** An inner ["www."] goes as well: the domain computed for
    [youwww.tube.com] is [youtube.com]. *)
Example analyze_url_inner_www :
  VideoAnalyzer.domain (VideoAnalyzer.analyze_url "https://youwww.tube.com/clip")
  = Some "youtube.com" /\
  ~ VideoAnalyzer.www_at_most_leading "youwww.tube.com".
Proof. split; [reflexivity|]. intros H. discriminate H. Qed.

(** The three analyses of the test suite. *)
Example analyze_url_scenarios :
  VideoAnalyzer.classified (VideoAnalyzer.analyze_url "https://example.com/video.mp4")
    true false "low" "direct_download" /\
  VideoAnalyzer.classified (VideoAnalyzer.analyze_url "https://youtube.com/watch?v=abc123")
    false true "medium" "yt_dlp" /\
  VideoAnalyzer.classified (VideoAnalyzer.analyze_url "https://unknown-site.com/player/video")
    false false "high" "browser_automation".
Proof. repeat split. Qed.

(* ===================================================================== *)
(** * VideoAnalyzer: the success estimate of a batch *)
(* ===================================================================== *)

Section SuccessProbability.

Import VideoAnalyzer.

Local Open Scope Q_scope.



End SuccessProbability.



(* ===================================================================== *)
(** * WebVideoDownloader: the login step *)
(* ===================================================================== *)

(** C9: for a site profile without a credential pair, [_handle_login]
    returns [True] at once and performs no interaction with the page,
    whatever the page would answer. *)
Theorem handle_login_without_credentials
        (page : WebVideoDownloader.Page) (site_config : SiteConfig.t) :
  ~ WebVideoDownloader.has_credential_pair site_config ->
  WebVideoDownloader._handle_login page site_config = (Returns true, []).
Proof.
  intros Hno. unfold WebVideoDownloader._handle_login.
  destruct (SiteConfig.login_username site_config) as [u|] eqn:Hu;
    destruct (SiteConfig.login_password site_config) as [p|] eqn:Hp;
    try (now destruct u); try reflexivity.
  exfalso. apply Hno. exists u, p. now split.
Qed.

Lemma handle_login_without_credentials_witness :
  WebVideoDownloader._handle_login
    {| WebVideoDownloader.page_url := "https://example-site.com/watch";
       WebVideoDownloader.raises := fun _ => Some (OtherException "page closed");
       WebVideoDownloader.url_after_login := "https://example-site.com/watch" |}
    SiteConfig.default
  = (Returns true, []).
Proof.
  apply handle_login_without_credentials.
  intros [u [p [Hu _]]]. discriminate Hu.
Defined.

(** With a pair the step does interact: the fields are filled, the
    submit control is clicked, the settle pause is taken; a page that
    refuses the first fill makes the step return [False]. *)
Example handle_login_with_credentials :
  let site_config :=
    {| SiteConfig.video_button := [".play-btn"];
       SiteConfig.download_link := [];
       SiteConfig.login_username := Some "user@example.com";
       SiteConfig.login_password := Some "secure_password";
       SiteConfig.login_url := None;
       SiteConfig.login_username_field := "#user";
       SiteConfig.login_password_field := "#pass";
       SiteConfig.login_submit_button := "#go";
       SiteConfig.wait_after_login := 3;
       SiteConfig.human_delay_min := 1;
       SiteConfig.human_delay_max := 3 |} in
  WebVideoDownloader._handle_login
    {| WebVideoDownloader.page_url := "https://example-site.com/";
       WebVideoDownloader.raises := fun _ => None;
       WebVideoDownloader.url_after_login := "https://example-site.com/home" |}
    site_config
  = (Returns true,
     [ WebVideoDownloader.Fill "#user" "user@example.com";
       WebVideoDownloader.RandomDelay (1 # 2) 1;
       WebVideoDownloader.Fill "#pass" "secure_password";
       WebVideoDownloader.RandomDelay (1 # 2) 1;
       WebVideoDownloader.HumanClick "#go";
       WebVideoDownloader.Sleep 3 ]) /\
  WebVideoDownloader._handle_login
    {| WebVideoDownloader.page_url := "https://example-site.com/";
       WebVideoDownloader.raises := fun _ => Some (OtherException "no such field");
       WebVideoDownloader.url_after_login := "https://example-site.com/" |}
    site_config
  = (Returns false, [ WebVideoDownloader.Fill "#user" "user@example.com" ]).
Proof. split; reflexivity. Qed.

(* ===================================================================== *)
(** * VPNManager: connecting and rotating *)
(* ===================================================================== *)

Lemma chosen_country_in_countries (i : nat) :
  In (nth (Nat.modulo i (List.length VPNManager.countries)) VPNManager.countries "US")
     VPNManager.countries.
Proof.
  apply nth_In. apply Nat.mod_upper_bound. discriminate.
Qed.

(** C6: [connect_to_random_server] always returns a flag and never
    raises.  With the VPN disabled it returns [True] and does nothing.
    With the VPN enabled, exit code zero of the client makes it return
    [True] with the chosen country in [current_server] and the clock
    reading in [last_rotation]; a non-zero exit code, a time-out or any
    other exception makes it return [False] with the state as it was. *)
Theorem connect_to_random_server_signal (self : VPNManager.t) (env : VPNManager.Env) :
  let '(r, self', trace) := VPNManager.connect_to_random_server self env in
  (exists ok, r = Returns ok) /\
  (VPNManager.enabled self = false ->
   r = Returns true /\ self' = self /\ trace = []) /\
  (VPNManager.enabled self = true ->
   forall result,
     VPNManager.connect_run env = Returns result ->
     VPNManager.returncode result = 0 ->
     exists country,
       In country VPNManager.countries /\
       r = Returns true /\
       VPNManager.current_server self' = Some country /\
       VPNManager.last_rotation self' = VPNManager.now_connected env /\
       VPNManager.enabled self' = true /\
       trace = [ VPNManager.Run ("nordvpn connect " ++ country) 30;
                 VPNManager.Sleep 2 5 ]) /\
  (VPNManager.enabled self = true ->
   (forall result,
      VPNManager.connect_run env = Returns result ->
      VPNManager.returncode result <> 0) ->
   r = Returns false /\ self' = self).
Proof.
  unfold VPNManager.connect_to_random_server, VPNManager.connect_try.
  destruct (VPNManager.enabled self) eqn:Hen; cbn [negb].
  2: { split; [eauto|]. split; [auto|]. split; intros H; discriminate H. }
  destruct (VPNManager.connect_run env) as [result|e] eqn:Hrun.
  - destruct (VPNManager.returncode result =? 0) eqn:Hrc.
    + split; [eauto|]. split; [intros H; discriminate H|]. split.
      * intros _ result' _ _. eexists.
        split; [apply chosen_country_in_countries|]. repeat split.
      * intros _ Hnz. apply Z.eqb_eq in Hrc. now elim (Hnz result eq_refl).
    + split; [eauto|]. split; [intros H; discriminate H|]. split.
      * intros _ result' [= <-] Hz. rewrite Hz in Hrc. discriminate Hrc.
      * intros _ _. split; reflexivity.
  - destruct e;
      (split; [eauto|]; split; [intros H; discriminate H|]; split;
       [intros _ result' Hr; discriminate Hr | intros _ _; split; reflexivity]).
Qed.

Lemma connect_to_random_server_signal_witness :
  let env :=
    {| VPNManager.choice := 1;
       VPNManager.connect_run := Raises TimeoutExpired;
       VPNManager.disconnect_run := Raises TimeoutExpired;
       VPNManager.now_rotate := 5;
       VPNManager.now_connected := 7;
       VPNManager.randint_300_1800 := 300 |} in
  VPNManager.connect_to_random_server (VPNManager.init true 0) env
  = (Returns false, VPNManager.init true 0, [VPNManager.Run "nordvpn connect DE" 30]).
Proof.
  intros env.
  pose proof (connect_to_random_server_signal (VPNManager.init true 0) env) as H.
  destruct (VPNManager.connect_to_random_server (VPNManager.init true 0) env)
    as [[r self'] trace] eqn:E.
  destruct H as (_ & _ & _ & H).
  destruct (H eq_refl) as [-> ->]; [intros result Hrun; discriminate Hrun|].
  vm_compute in E. injection E as <-. reflexivity.
Defined.

(** The runs of the test suite: exit code 0 and exit code 1. *)
Example connect_to_random_server_runs :
  let env rc :=
    {| VPNManager.choice := 10;
       VPNManager.connect_run :=
         Returns {| VPNManager.returncode := rc; VPNManager.stderr := "" |};
       VPNManager.disconnect_run := Raises TimeoutExpired;
       VPNManager.now_rotate := 5;
       VPNManager.now_connected := 7;
       VPNManager.randint_300_1800 := 300 |} in
  VPNManager.connect_to_random_server (VPNManager.init true 0) (env 0)
  = (Returns true,
     {| VPNManager.enabled := true;
        VPNManager.current_server := Some "GB";
        VPNManager.last_rotation := 7 |},
     [VPNManager.Run "nordvpn connect GB" 30; VPNManager.Sleep 2 5]) /\
  VPNManager.connect_to_random_server (VPNManager.init true 0) (env 1)
  = (Returns false, VPNManager.init true 0, [VPNManager.Run "nordvpn connect GB" 30]) /\
  VPNManager.connect_to_random_server (VPNManager.init false 0) (env 1)
  = (Returns true, VPNManager.init false 0, []).
Proof. repeat split. Qed.

(** What [rotate_if_needed] does with the VPN enabled: it rotates, by a
    disconnect, a pause and a connect, exactly when [force] is set or
    the time since the last rotation exceeds the sampled number of
    seconds; the sample is that of [random.randint(300, 1800)]. *)
Lemma rotate_if_needed_decision (self : VPNManager.t) (force : bool) (env : VPNManager.Env) :
  VPNManager.enabled self = true ->
  let elapsed := VPNManager.now_rotate env - VPNManager.last_rotation self in
  let due :=
    (force || (VPNManager.microseconds (VPNManager.randint_300_1800 env) <? elapsed))%bool in
  let '(r, self', trace) := VPNManager.rotate_if_needed self force env in
  if due then
    exists connect_trace,
      trace = (VPNManager.Run "nordvpn disconnect" 15 :: VPNManager.Sleep 1 3
               :: connect_trace)%list /\
      (r, self', connect_trace) = VPNManager.connect_to_random_server self env
  else r = Returns true /\ self' = self /\ trace = [].
Proof.
  intros Hen. unfold VPNManager.rotate_if_needed, VPNManager.disconnect.
  rewrite Hen. cbn [negb].
  destruct (force || _)%bool.
  - destruct (VPNManager.disconnect_run env);
      destruct (VPNManager.connect_to_random_server self env) as [[r s] tr];
      eexists; split; reflexivity.
  - repeat split.
Qed.

(** C5, evaluated on the code: with rotation bounds of 10 and 20
    seconds configured, a manager built from that configuration and
    asked 60 seconds after its last rotation does not rotate, whatever
    [random.randint(300, 1800)] returns, although 60 seconds exceed every
    duration between the configured bounds. *)
Theorem rotate_if_needed_ignores_configured_bounds (env : VPNManager.Env) :
  VPNManager.sample_in_range env ->
  VPNManager.now_rotate env = VPNManager.microseconds 60 ->
  let config := WebVideoDownloader.short_rotation_config in
  let vpn := WebVideoDownloader.make_vpn_manager config 0 in
  let elapsed := VPNManager.now_rotate env - VPNManager.last_rotation vpn in
  VPNManager.enabled vpn = true /\
  (forall seconds,
      GlobalConfig.ip_rotation_interval_min config <= seconds
        <= GlobalConfig.ip_rotation_interval_max config ->
      VPNManager.microseconds seconds < elapsed) /\
  VPNManager.rotate_if_needed vpn false env = (Returns true, vpn, []).
Proof.
  intros [Hlo Hhi] Hnow config vpn elapsed. subst elapsed. rewrite Hnow.
  split; [reflexivity|]. split.
  - intros seconds [_ Hmax]. cbn in *. unfold VPNManager.microseconds. lia.
  - unfold VPNManager.rotate_if_needed. cbn [negb vpn VPNManager.enabled
      WebVideoDownloader.make_vpn_manager VPNManager.init orb].
    rewrite Hnow.
    assert (Hnot : (VPNManager.microseconds (VPNManager.randint_300_1800 env)
                     <? VPNManager.microseconds 60 - VPNManager.last_rotation vpn)
                   = false).
    { apply Z.ltb_ge. unfold VPNManager.microseconds. cbn. lia. }
    now rewrite Hnot.
Qed.

Lemma rotate_if_needed_ignores_configured_bounds_witness :
  let env :=
    {| VPNManager.choice := 0;
       VPNManager.connect_run :=
         Returns {| VPNManager.returncode := 0; VPNManager.stderr := "" |};
       VPNManager.disconnect_run :=
         Returns {| VPNManager.returncode := 0; VPNManager.stderr := "" |};
       VPNManager.now_rotate := 60000000;
       VPNManager.now_connected := 60000001;
       VPNManager.randint_300_1800 := 300 |} in
  let vpn := WebVideoDownloader.make_vpn_manager
               WebVideoDownloader.short_rotation_config 0 in
  VPNManager.rotate_if_needed vpn false env = (Returns true, vpn, []).
Proof.
  intros env vpn.
  apply (rotate_if_needed_ignores_configured_bounds env).
  - unfold VPNManager.sample_in_range. simpl. lia.
  - reflexivity.
Defined.

(* ===================================================================== *)
(** * VideoExtractor: the check after the download *)
(* ===================================================================== *)



(** A run in which the engine leaves the video next to its info file,
    and one in which the listing is refused. *)
Example download_video_runs :
  let env listing :=
    {| VideoExtractor.extract_video_info := fun u =>
         Some {| VideoInfo.url := u; VideoInfo.title := "Clip";
                 VideoInfo.duration := None; VideoInfo.format_id := None;
                 VideoInfo.filesize := None; VideoInfo.quality := None;
                 VideoInfo.direct_url := None |};
       VideoExtractor.ydl_download := fun _ _ => Returns tt;
       VideoExtractor.glob := fun pattern =>
         if String.eqb pattern "example.com_Clip.*" then listing else Returns [];
       VideoExtractor.time_start := 0;
       VideoExtractor.time_name := 1;
       VideoExtractor.time_end := 2 |} in
  let run listing :=
    VideoExtractor.download_video {| VideoExtractor.output_dir := "downloads" |}
      (env listing) "https://example.com/watch" None in
  let found :=
    run (Returns ["downloads/example.com_Clip.info.json";
                  "downloads/example.com_Clip.mp4"]) in
  DownloadResult.success found = true /\
  DownloadResult.filepath found = Some "downloads/example.com_Clip.mp4" /\
  run (Raises (OtherException "Unacceptable pattern"))
  = DownloadResult.failure "https://example.com/watch"
      "Download fehlgeschlagen: Unacceptable pattern".
Proof. repeat split. Qed.

(* ===================================================================== *)
(** * VideoExtractor: the safe file name *)
(* ===================================================================== *)

Section SafeTitle.

Import VideoExtractor.

(** Facts about the character classes are settled on the 256
    characters. *)
Ltac on_every_character c :=
  destruct c as [[] [] [] [] [] [] [] []]; vm_compute; congruence.

Lemma separator_not_word (c : ascii) : is_separator c = true -> is_word c = false.
Proof. on_every_character c. Qed.

Lemma space_not_word (c : ascii) : is_space c = true -> is_word c = false.
Proof. on_every_character c. Qed.

Lemma kept_not_separator_word (c : ascii) :
  kept_in_title c = true -> is_separator c = false -> is_word c = true.
Proof.
  unfold kept_in_title, is_separator.
  destruct (is_word c), (is_space c), (Ascii.eqb c "-"); simpl; congruence.
Qed.

Lemma not_separator_not_hyphen (c : ascii) :
  is_separator c = false -> Ascii.eqb "-" c = false.
Proof.
  unfold is_separator. rewrite (Ascii.eqb_sym "-" c).
  destruct (Ascii.eqb c "-"); simpl; congruence.
Qed.

Lemma forallb_filter (f : ascii -> bool) (s : string) :
  forallb f (filter f s) = true.
Proof.
  induction s as [|c s IH]; simpl; [reflexivity|].
  destruct (f c) eqn:E; simpl; [now rewrite E|exact IH].
Qed.

Lemma forallb_lstrip (f g : ascii -> bool) (s : string) :
  forallb f s = true -> forallb f (lstrip g s) = true.
Proof.
  induction s as [|c s IH]; simpl; [reflexivity|].
  intros H. destruct (g c); [|exact H].
  apply andb_true_iff in H. now apply IH.
Qed.

Lemma forallb_rstrip (f g : ascii -> bool) (s : string) :
  forallb f s = true -> forallb f (rstrip g s) = true.
Proof.
  induction s as [|c s IH]; simpl; [reflexivity|].
  intros H. apply andb_true_iff in H. destruct H as [Hc Hs].
  specialize (IH Hs). destruct (rstrip g s) as [|d r].
  - destruct (g c); simpl; [reflexivity|now rewrite Hc].
  - simpl in IH. simpl. rewrite Hc. exact IH.
Qed.

Lemma collapse_word_or_hyphen (s : string) :
  forall in_run,
    forallb kept_in_title s = true ->
    forallb word_or_hyphen (collapse_from in_run s) = true.
Proof.
  induction s as [|c s IH]; intros in_run H; simpl; [reflexivity|].
  simpl in H. apply andb_true_iff in H. destruct H as [Hc Hs].
  destruct (is_separator c) eqn:Hsep.
  - destruct in_run; [now apply IH|].
    cbn [forallb]. rewrite (IH true Hs). reflexivity.
  - cbn [forallb]. rewrite (IH false Hs). unfold word_or_hyphen.
    now rewrite (kept_not_separator_word c Hc Hsep).
Qed.

Lemma collapse_no_double_hyphen (s : string) :
  forall in_run,
    str_in "--" (collapse_from in_run s) = false /\
    (in_run = true -> startswith (collapse_from in_run s) "-" = false).
Proof.
  induction s as [|c s IH]; intros in_run; simpl.
  - split; [reflexivity|]. intros _. reflexivity.
  - destruct (is_separator c) eqn:Hsep.
    + destruct in_run; [apply IH|].
      destruct (IH true) as [Hin Hstart]. split; [|discriminate].
      cbn [str_in startswith]. rewrite Hin.
      change (Ascii.eqb "-" "-") with true. cbn [andb].
      destruct (collapse_from true s) as [|d r] eqn:E; [reflexivity|].
      specialize (Hstart eq_refl). cbn [startswith] in Hstart.
      cbn [startswith]. destruct (Ascii.eqb "-" d); [|reflexivity].
      simpl in Hstart. now destruct r.
    + destruct (IH false) as [Hin _].
      pose proof (not_separator_not_hyphen c Hsep) as Hc.
      split.
      * cbn [str_in startswith]. now rewrite Hc, Hin.
      * intros _. cbn [startswith]. now rewrite Hc.
Qed.

Lemma filter_word_kept (s : string) :
  filter is_word (filter kept_in_title s) = filter is_word s.
Proof.
  induction s as [|c s IH]; simpl; [reflexivity|].
  unfold kept_in_title at 1. destruct (is_word c) eqn:Hw; simpl.
  - now rewrite Hw, IH.
  - destruct (is_space c || Ascii.eqb c "-")%bool; simpl; [now rewrite Hw|exact IH].
Qed.

Lemma filter_word_lstrip (s : string) :
  filter is_word (lstrip is_space s) = filter is_word s.
Proof.
  induction s as [|c s IH]; simpl; [reflexivity|].
  destruct (is_space c) eqn:Hsp; [|reflexivity].
  now rewrite (space_not_word c Hsp).
Qed.

Lemma filter_word_rstrip (s : string) :
  filter is_word (rstrip is_space s) = filter is_word s.
Proof.
  induction s as [|c s IH]; simpl; [reflexivity|].
  destruct (rstrip is_space s) as [|d r].
  - simpl in IH. rewrite <- IH.
    destruct (is_space c) eqn:Hsp; [|reflexivity].
    now rewrite (space_not_word c Hsp).
  - cbn [filter]. cbn [filter] in IH. now rewrite IH.
Qed.

Lemma filter_word_collapse (s : string) :
  forall in_run, filter is_word (collapse_from in_run s) = filter is_word s.
Proof.
  induction s as [|c s IH]; intros in_run; simpl; [reflexivity|].
  destruct (is_separator c) eqn:Hsep.
  - rewrite (separator_not_word c Hsep).
    destruct in_run; [apply IH|].
    cbn [filter]. change (is_word "-") with false. cbv iota. apply IH.
  - cbn [filter]. now rewrite IH.
Qed.

(** The sanitised title: word characters and single hyphens only, the
    word characters of the title in their order. *)
Lemma safe_title_of_shape (title : string) :
  forallb word_or_hyphen (safe_title_of title) = true /\
  str_in "--" (safe_title_of title) = false /\
  filter is_word (safe_title_of title) = filter is_word title.
Proof.
  unfold safe_title_of, collapse_separators, strip. repeat split.
  - apply collapse_word_or_hyphen, forallb_rstrip, forallb_lstrip, forallb_filter.
  - apply collapse_no_double_hyphen.
  - now rewrite filter_word_collapse, filter_word_rstrip, filter_word_lstrip,
      filter_word_kept.
Qed.

End SafeTitle.

(** The name [_get_safe_filename] builds, in terms of the domain it
    computes. *)
Lemma get_safe_filename_exact (url title : string) (now : Z) :
  match UrlParse.urlparse url with
  | Returns parsed =>
      let domain := VideoExtractor.domain_of parsed in
      let rest :=
        match title with
        | EmptyString => str_of_int now
        | _ => VideoExtractor.safe_title_of title
        end in
      VideoExtractor._get_safe_filename url title now
      = Returns (take 100 (domain ++ "_" ++ rest))
  | Raises e => VideoExtractor._get_safe_filename url title now = Raises e
  end.
Proof.
  unfold VideoExtractor._get_safe_filename.
  destruct (UrlParse.urlparse url) as [parsed|e]; cbn [bind]; [|reflexivity].
  now destruct title.
Qed.




(** The file names of the test suite, one with user information and
    port, one with an inner ["www."], and a URL that is rejected. *)
Example get_safe_filename_scenarios :
  VideoExtractor._get_safe_filename "https://test-site.com/video"
    "Test Video: Special/Characters!" 0
  = Returns "test-site.com_Test-Video-SpecialCharacters" /\
  VideoExtractor._get_safe_filename "https://example.com/page" "" 1700000000
  = Returns "example.com_1700000000" /\
  VideoExtractor._get_safe_filename "https://user:pw@www.example.com:8080/v" "a  --  b" 0
  = Returns "user:pw@example.com:8080_a-b" /\
  VideoExtractor._get_safe_filename "https://cdn.www.example.com/v" "Clip" 0
  = Returns "cdn.example.com_Clip" /\
  VideoExtractor._get_safe_filename "http://[::1/x" "Clip" 0
  = Raises (ValueError "Invalid IPv6 URL").
Proof. repeat split. Qed.

(* ===================================================================== *)
(** * Further facts: the failure classifier in its context *)
(* ===================================================================== *)

Lemma lower_app (a b : string) : lower (a ++ b) = lower a ++ lower b.
Proof.
  induction a as [|c a IH]; simpl; [reflexivity|]. now rewrite IH.
Qed.

Lemma startswith_app (s t p : string) :
  startswith s p = true -> startswith (s ++ t) p = true.
Proof.
  revert s. induction p as [|a p IH]; intros s H;
    [destruct s; [destruct t|]; reflexivity|].
  destruct s as [|b s]; cbn [startswith] in H; [discriminate H|].
  apply andb_true_iff in H. destruct H as [Hab Hp].
  simpl. rewrite Hab. simpl. now apply IH.
Qed.

Lemma str_in_app_r (p s t : string) :
  str_in p s = true -> str_in p (s ++ t) = true.
Proof.
  induction s as [|c s IH]; intros H.
  - cbn [str_in] in H. rewrite orb_false_r in H.
    destruct p; [now destruct t|discriminate H].
  - cbn [str_in] in H. apply orb_true_iff in H.
    change (String c s ++ t) with (String c (s ++ t)). cbn [str_in].
    apply orb_true_iff. destruct H as [H|H].
    + left. exact (startswith_app (String c s) t p H).
    + right. now apply IH.
Qed.

Lemma str_in_app_l (p s t : string) :
  str_in p s = true -> str_in p (t ++ s) = true.
Proof.
  intros H. induction t as [|c t IH]; [exact H|].
  change (String c t ++ s) with (String c (t ++ s)). cbn [str_in].
  rewrite IH. apply orb_true_r.
Qed.

Lemma any_pattern_in_context (pre m post : string) (patterns : list string) :
  ErrorRecovery.any_pattern_in m patterns = true ->
  ErrorRecovery.any_pattern_in (pre ++ m ++ post) patterns = true.
Proof.
  unfold ErrorRecovery.any_pattern_in. intros H.
  apply existsb_exists in H. destruct H as (p & Hin & Hp).
  apply existsb_exists. exists p. split; [exact Hin|].
  now apply str_in_app_l, str_in_app_r.
Qed.

(** A message is a time-out exactly when a pattern of the first row
    occurs in it. *)
Lemma categorize_error_network_timeout (m : string) :
  ErrorRecovery.categorize_error m = "network_timeout" <->
  ErrorRecovery.any_pattern_in (lower m) ["timeout"; "connection"; "network"] = true.
Proof.
  unfold ErrorRecovery.categorize_error, ErrorRecovery.error_patterns.
  cbn [ErrorRecovery.first_category].
  destruct (ErrorRecovery.any_pattern_in (lower m) ["timeout"; "connection"; "network"]).
  - split; reflexivity.
  - split; [|discriminate].
    repeat match goal with
           | |- context [if ?b then _ else _] => destruct b
           end; discriminate.
Qed.

(** X1: a time-out is not hidden by context: a message that contains a
    message classified [network_timeout] is classified
    [network_timeout] itself. *)
Theorem categorize_error_timeout_in_context (pre m post : string) :
  ErrorRecovery.categorize_error m = "network_timeout" ->
  ErrorRecovery.categorize_error (pre ++ m ++ post) = "network_timeout".
Proof.
  intros H. apply categorize_error_network_timeout in H.
  apply categorize_error_network_timeout.
  rewrite !lower_app. now apply any_pattern_in_context.
Qed.

Lemma categorize_error_timeout_in_context_witness :
  ErrorRecovery.categorize_error
    ("Download fehlgeschlagen: " ++ "Read timed out: connection reset" ++ " (429)")
  = "network_timeout".
Proof.
  apply categorize_error_timeout_in_context. reflexivity.
Defined.

(** The prefix that [download_video] puts before the text of an
    exception holds no pattern and completes none. *)
Lemma categorize_error_download_prefix (m : string) :
  ErrorRecovery.categorize_error ("Download fehlgeschlagen: " ++ m)
  = ErrorRecovery.categorize_error m.
Proof.
  unfold ErrorRecovery.categorize_error. rewrite lower_app.
  change (lower "Download fehlgeschlagen: ") with "download fehlgeschlagen: ".
  generalize (lower m). intros x.
  unfold ErrorRecovery.error_patterns, ErrorRecovery.first_category,
    ErrorRecovery.any_pattern_in, existsb.
  cbn [append str_in startswith Ascii.eqb Bool.eqb andb orb].
  reflexivity.
Qed.

(** X2: how a failed download is classified.  When [download_video]
    fails because an exception reached its handler, the category of the
    reported error is the category of the text of that exception; when
    it fails by its own checks (no video information, no video file),
    the category is ['unknown']. *)
Theorem download_video_error_category
        (self : VideoExtractor.t) (env : VideoExtractor.Env) (url : string)
        (custom_filename : option string) :
  let result := VideoExtractor.download_video self env url custom_filename in
  DownloadResult.success result = false ->
  exists message,
    DownloadResult.error result = Some message /\
    match VideoExtractor.download_video_try self env url custom_filename with
    | Raises e =>
        ErrorRecovery.categorize_error message
        = ErrorRecovery.categorize_error (exn_str e)
    | Returns _ => ErrorRecovery.categorize_error message = "unknown"
    end.
Proof.
  unfold VideoExtractor.download_video, VideoExtractor.download_video_try.
  destruct (VideoExtractor.extract_video_info env url) as [video_info|];
    cbn zeta; [|intros _; eexists; split; reflexivity].
  destruct (VideoExtractor.chosen_filename url custom_filename video_info env)
    as [filename|e]; cbn [bind];
    [|intros _; eexists; split; [reflexivity|apply categorize_error_download_prefix]].
  destruct (VideoExtractor.ydl_download env _ url) as [[]|e]; cbn [bind];
    [|intros _; eexists; split; [reflexivity|apply categorize_error_download_prefix]].
  destruct (VideoExtractor.glob env (filename ++ ".*")) as [files|e]; cbn [bind];
    [|intros _; eexists; split; [reflexivity|apply categorize_error_download_prefix]].
  destruct (List.filter VideoExtractor.is_video_file files) as [|first rest].
  - intros _. eexists. split; reflexivity.
  - intros H. discriminate H.
Qed.

Lemma download_video_error_category_witness :
  let env :=
    {| VideoExtractor.extract_video_info := fun u =>
         Some {| VideoInfo.url := u; VideoInfo.title := "Clip";
                 VideoInfo.duration := None; VideoInfo.format_id := None;
                 VideoInfo.filesize := None; VideoInfo.quality := None;
                 VideoInfo.direct_url := None |};
       VideoExtractor.ydl_download := fun _ _ =>
         Raises (OtherException "HTTP Error 429: Too Many Requests");
       VideoExtractor.glob := fun _ => Returns [];
       VideoExtractor.time_start := 0;
       VideoExtractor.time_name := 1;
       VideoExtractor.time_end := 2 |} in
  exists message,
    DownloadResult.error
      (VideoExtractor.download_video {| VideoExtractor.output_dir := "downloads" |}
         env "https://example.com/watch" None) = Some message /\
    ErrorRecovery.categorize_error message = "rate_limited".
Proof.
  intros env.
  destruct (download_video_error_category
              {| VideoExtractor.output_dir := "downloads" |} env
              "https://example.com/watch" None eq_refl) as (message & Herr & Hcat).
  exists message. split; [exact Herr|]. exact Hcat.
Defined.

(* ===================================================================== *)
(** * Further facts: the result of a download *)
(* ===================================================================== *)

(** X3: the shape of a [DownloadResult].  Every result carries the URL
    it was asked for.  A success carries a path, the video information
    and the elapsed time, and no error; a failure carries an error
    message and none of the other three. *)
Theorem download_video_result_shape
        (self : VideoExtractor.t) (env : VideoExtractor.Env) (url : string)
        (custom_filename : option string) :
  let result := VideoExtractor.download_video self env url custom_filename in
  DownloadResult.url result = url /\
  (if DownloadResult.success result then
     DownloadResult.filepath result <> None /\
     DownloadResult.video_info result = VideoExtractor.extract_video_info env url /\
     DownloadResult.video_info result <> None /\
     DownloadResult.download_time result
     = Some (VideoExtractor.time_end env - VideoExtractor.time_start env) /\
     DownloadResult.error result = None
   else
     DownloadResult.filepath result = None /\
     DownloadResult.video_info result = None /\
     DownloadResult.download_time result = None /\
     DownloadResult.error result <> None).
Proof.
  unfold VideoExtractor.download_video, VideoExtractor.download_video_try.
  destruct (VideoExtractor.extract_video_info env url) as [video_info|];
    cbn zeta; [|repeat split; discriminate].
  destruct (VideoExtractor.chosen_filename url custom_filename video_info env)
    as [filename|e]; cbn [bind]; [|repeat split; discriminate].
  destruct (VideoExtractor.ydl_download env _ url) as [[]|e]; cbn [bind];
    [|repeat split; discriminate].
  destruct (VideoExtractor.glob env (filename ++ ".*")) as [files|e]; cbn [bind];
    [|repeat split; discriminate].
  destruct (List.filter VideoExtractor.is_video_file files) as [|first rest];
    repeat split; discriminate.
Qed.

Lemma append_assoc (a b c : string) : (a ++ b) ++ c = a ++ (b ++ c).
Proof.
  induction a as [|x a IH]; simpl; [reflexivity|]. now rewrite IH.
Qed.

Lemma endswith_app (a b : string) : endswith (a ++ b) b = true.
Proof.
  induction a as [|x a IH].
  - destruct b; simpl; [reflexivity|].
    now rewrite Ascii.eqb_refl, String.eqb_refl.
  - change (String x a ++ b) with (String x (a ++ b)). cbn [endswith].
    rewrite IH. apply orb_true_r.
Qed.

Lemma rpartition_spec (c : ascii) (s l r : string) :
  rpartition c s = Some (l, r) -> s = l ++ String c r.
Proof.
  revert l. induction s as [|b s IH]; intros l H; simpl in H; [discriminate H|].
  destruct (rpartition c s) as [[l' r']|].
  - injection H as <- <-. simpl. now rewrite (IH l' eq_refl).
  - destruct (Ascii.eqb b c) eqn:E; [|discriminate H].
    injection H as <- <-. apply Ascii.eqb_eq in E. now subst b.
Qed.

(** [Path.suffix] is an end of the path. *)
Lemma suffix_endswith (f : string) : endswith f (VideoExtractor.suffix f) = true.
Proof.
  assert (Hempty : endswith f "" = true).
  { rewrite <- (endswith_app f ""). f_equal.
    induction f as [|x f IH]; simpl; [reflexivity|]. now rewrite <- IH. }
  unfold VideoExtractor.suffix, VideoExtractor.path_name.
  destruct (rpartition "/" f) as [[dir name]|] eqn:Hdir.
  - apply rpartition_spec in Hdir.
    destruct (rpartition "." name) as [[[|x stem] [|y ext]]|] eqn:Hname;
      try exact Hempty.
    apply rpartition_spec in Hname. subst f name.
    change (dir ++ String "/" (String x stem ++ String "." (String y ext)))
      with (dir ++ (String "/" (String x stem) ++ ("." ++ String y ext))).
    rewrite <- append_assoc. apply endswith_app.
  - destruct (rpartition "." f) as [[[|x stem] [|y ext]]|] eqn:Hname;
      try exact Hempty.
    apply rpartition_spec in Hname. subst f.
    change (String x stem ++ String "." (String y ext))
      with (String x stem ++ ("." ++ String y ext)).
    apply endswith_app.
Qed.

Lemma is_video_file_endswith (f : string) :
  VideoExtractor.is_video_file f = true ->
  exists ext,
    In ext VideoExtractor.video_suffixes /\ endswith f ext = true.
Proof.
  unfold VideoExtractor.is_video_file, mem. intros H.
  apply existsb_exists in H. destruct H as (ext & Hin & Heq).
  apply String.eqb_eq in Heq. exists ext. split; [exact Hin|].
  rewrite <- Heq. apply suffix_endswith.
Qed.

(** X4: a successful download names a video file: the path the result
    carries ends in one of [.mp4], [.mkv], [.webm], [.avi], each of
    which is also an extension the URL classifier takes for a direct
    video. *)
Theorem download_video_success_names_video_file
        (self : VideoExtractor.t) (env : VideoExtractor.Env) (url : string)
        (custom_filename : option string) :
  let result := VideoExtractor.download_video self env url custom_filename in
  DownloadResult.success result = true ->
  exists file ext,
    DownloadResult.filepath result = Some file /\
    In ext VideoExtractor.video_suffixes /\
    In ext VideoAnalyzer.video_extensions /\
    endswith file ext = true.
Proof.
  unfold VideoExtractor.download_video, VideoExtractor.download_video_try.
  destruct (VideoExtractor.extract_video_info env url) as [video_info|];
    cbn zeta; [|intros H; discriminate H].
  destruct (VideoExtractor.chosen_filename url custom_filename video_info env)
    as [filename|e]; cbn [bind]; [|intros H; discriminate H].
  destruct (VideoExtractor.ydl_download env _ url) as [[]|e]; cbn [bind];
    [|intros H; discriminate H].
  destruct (VideoExtractor.glob env (filename ++ ".*")) as [files|e]; cbn [bind];
    [|intros H; discriminate H].
  destruct (List.filter VideoExtractor.is_video_file files)
    as [|first rest] eqn:Hfiles; [intros H; discriminate H|].
  intros _.
  assert (Hin : In first (List.filter VideoExtractor.is_video_file files))
    by (rewrite Hfiles; now left).
  apply filter_In in Hin. destruct Hin as [_ Hvideo].
  destruct (is_video_file_endswith first Hvideo) as (ext & Hext & Hend).
  exists first, ext. repeat split; try assumption.
  simpl in Hext. simpl. intuition (subst; auto).
Qed.

Lemma download_video_success_names_video_file_witness :
  let env :=
    {| VideoExtractor.extract_video_info := fun u =>
         Some {| VideoInfo.url := u; VideoInfo.title := "Clip";
                 VideoInfo.duration := None; VideoInfo.format_id := None;
                 VideoInfo.filesize := None; VideoInfo.quality := None;
                 VideoInfo.direct_url := None |};
       VideoExtractor.ydl_download := fun _ _ => Returns tt;
       VideoExtractor.glob := fun _ =>
         Returns ["downloads/example.com_Clip.info.json";
                  "downloads/example.com_Clip.webm"];
       VideoExtractor.time_start := 0;
       VideoExtractor.time_name := 1;
       VideoExtractor.time_end := 2 |} in
  exists file ext,
    DownloadResult.filepath
      (VideoExtractor.download_video {| VideoExtractor.output_dir := "downloads" |}
         env "https://example.com/watch" None) = Some file /\
    In ext VideoExtractor.video_suffixes /\
    In ext VideoAnalyzer.video_extensions /\
    endswith file ext = true.
Proof.
  intros env.
  exact (download_video_success_names_video_file
           {| VideoExtractor.output_dir := "downloads" |} env
           "https://example.com/watch" None eq_refl).
Defined.

(* ===================================================================== *)
(** * Further facts: the safe file name *)
(* ===================================================================== *)

Lemma filter_id (f : ascii -> bool) (s : string) :
  forallb f s = true -> filter f s = s.
Proof.
  induction s as [|c s IH]; simpl; [reflexivity|].
  intros H. apply andb_true_iff in H. destruct H as [Hc Hs].
  now rewrite Hc, (IH Hs).
Qed.

Lemma forallb_impl (f g : ascii -> bool) (s : string) :
  (forall c, f c = true -> g c = true) ->
  forallb f s = true -> forallb g s = true.
Proof.
  intros Hfg. induction s as [|c s IH]; simpl; [reflexivity|].
  intros H. apply andb_true_iff in H. destruct H as [Hc Hs].
  now rewrite (Hfg c Hc), (IH Hs).
Qed.

Lemma word_or_hyphen_kept (c : ascii) :
  VideoExtractor.word_or_hyphen c = true -> VideoExtractor.kept_in_title c = true.
Proof.
  unfold VideoExtractor.word_or_hyphen, VideoExtractor.kept_in_title.
  destruct (is_word c), (Ascii.eqb c "-"), (is_space c); simpl; congruence.
Qed.

Lemma word_or_hyphen_not_space (c : ascii) :
  VideoExtractor.word_or_hyphen c = true -> is_space c = false.
Proof.
  unfold VideoExtractor.word_or_hyphen. intros H.
  destruct (is_space c) eqn:Hsp; [|reflexivity].
  rewrite (space_not_word c Hsp) in H. simpl in H.
  apply Ascii.eqb_eq in H. subst c. discriminate Hsp.
Qed.

Lemma lstrip_id (s : string) :
  forallb VideoExtractor.word_or_hyphen s = true -> lstrip is_space s = s.
Proof.
  destruct s as [|c s]; simpl; [reflexivity|].
  intros H. apply andb_true_iff in H. destruct H as [Hc _].
  now rewrite (word_or_hyphen_not_space c Hc).
Qed.

Lemma rstrip_id (s : string) :
  forallb VideoExtractor.word_or_hyphen s = true -> rstrip is_space s = s.
Proof.
  induction s as [|c s IH]; simpl; [reflexivity|].
  intros H. apply andb_true_iff in H. destruct H as [Hc Hs].
  rewrite (IH Hs). destruct s; [|reflexivity].
  now rewrite (word_or_hyphen_not_space c Hc).
Qed.

Lemma collapse_id (s : string) :
  forall in_run,
    forallb VideoExtractor.word_or_hyphen s = true ->
    str_in "--" s = false ->
    (in_run = true -> startswith s "-" = false) ->
    VideoExtractor.collapse_from in_run s = s.
Proof.
  induction s as [|c s IH]; intros in_run Hchars Hdouble Hstart; [reflexivity|].
  cbn [forallb] in Hchars. apply andb_true_iff in Hchars.
  destruct Hchars as [Hc Hs].
  cbn [str_in] in Hdouble. apply orb_false_iff in Hdouble.
  destruct Hdouble as [Hhere Hlater].
  cbn [VideoExtractor.collapse_from].
  destruct (VideoExtractor.is_separator c) eqn:Hsep.
  - assert (Hhyphen : c = "-"%char).
    { unfold VideoExtractor.is_separator in Hsep.
      rewrite (word_or_hyphen_not_space c Hc), orb_false_r in Hsep.
      now apply Ascii.eqb_eq in Hsep. }
    subst c. destruct in_run.
    { specialize (Hstart eq_refl). cbn [startswith] in Hstart.
      rewrite Ascii.eqb_refl in Hstart. destruct s; discriminate Hstart. }
    f_equal. apply IH; [exact Hs|exact Hlater|]. intros _.
    cbn [startswith] in Hhere. rewrite Ascii.eqb_refl in Hhere.
    destruct s as [|d s]; [reflexivity|]. cbn [startswith andb] in Hhere.
    cbn [startswith]. destruct (Ascii.eqb "-" d); [|reflexivity].
    simpl in Hhere. now destruct s.
  - f_equal. apply IH; [exact Hs|exact Hlater|discriminate].
Qed.

(** X5: sanitising a title is idempotent: a sanitised title is left as
    it is by a second pass. *)
Theorem safe_title_of_idempotent (title : string) :
  VideoExtractor.safe_title_of (VideoExtractor.safe_title_of title)
  = VideoExtractor.safe_title_of title.
Proof.
  destruct (safe_title_of_shape title) as (Hchars & Hdouble & _).
  generalize dependent (VideoExtractor.safe_title_of title). intros s Hchars Hdouble.
  unfold VideoExtractor.safe_title_of, VideoExtractor.collapse_separators, strip.
  rewrite (filter_id _ s (forallb_impl _ _ s word_or_hyphen_kept Hchars)).
  rewrite (lstrip_id s Hchars), (rstrip_id s Hchars).
  apply collapse_id; [exact Hchars|exact Hdouble|discriminate].
Qed.

Lemma char_in_app (c : ascii) (a b : string) :
  char_in c (a ++ b) = (char_in c a || char_in c b)%bool.
Proof.
  induction a as [|x a IH]; simpl; [reflexivity|].
  now rewrite IH, orb_assoc.
Qed.

Lemma char_in_take (c : ascii) (n : nat) (s : string) :
  char_in c s = false -> char_in c (take n s) = false.
Proof.
  revert s. induction n as [|n IH]; intros [|x s]; simpl; try reflexivity.
  intros H. apply orb_false_iff in H. destruct H as [Hx Hs].
  now rewrite Hx, (IH s Hs).
Qed.

Lemma char_in_replace_from (c : ascii) (old s : string) :
  char_in c s = false ->
  forall skip, char_in c (replace_from old "" s skip) = false.
Proof.
  induction s as [|x s IH]; intros H skip; [reflexivity|].
  simpl in H. apply orb_false_iff in H. destruct H as [Hx Hs].
  cbn [replace_from]. destruct skip as [|k]; [|now apply IH].
  destruct (startswith (String x s) old).
  - simpl. now apply IH.
  - simpl. now rewrite Hx, IH.
Qed.

Lemma char_in_forallb (f : ascii -> bool) (c : ascii) (s : string) :
  forallb f s = true -> f c = false -> char_in c s = false.
Proof.
  intros Hs Hc. induction s as [|x s IH]; [reflexivity|].
  simpl in Hs. apply andb_true_iff in Hs. destruct Hs as [Hx Hs].
  simpl. rewrite (IH Hs), orb_false_r.
  destruct (Ascii.eqb c x) eqn:E; [|reflexivity].
  apply Ascii.eqb_eq in E. subst x. congruence.
Qed.

Lemma span_until_fst (stop s : string) (c : ascii) :
  char_in c stop = true -> char_in c (fst (UrlParse.span_until stop s)) = false.
Proof.
  intros Hc. induction s as [|x s IH]; [reflexivity|].
  cbn [UrlParse.span_until]. destruct (char_in x stop) eqn:Hx; [reflexivity|].
  destruct (UrlParse.span_until stop s) as [l r]. simpl in *.
  rewrite IH, orb_false_r.
  destruct (Ascii.eqb c x) eqn:E; [|reflexivity].
  apply Ascii.eqb_eq in E. subst x. congruence.
Qed.

(** The network location of a parsed URL holds none of [/], [?], [#]. *)
Lemma netloc_free_of_delimiters (url : string) (parsed : UrlParse.ParseResult) (c : ascii) :
  UrlParse.urlparse url = Returns parsed ->
  char_in c "/?#" = true ->
  char_in c (UrlParse.netloc parsed) = false.
Proof.
  unfold UrlParse.urlparse, UrlParse.urlsplit. intros H Hc.
  destruct (UrlParse.split_scheme _) as [scheme rest].
  destruct (UrlParse.split_netloc rest) as [netloc rest'] eqn:Hnet.
  assert (Hfree : char_in c netloc = false).
  { unfold UrlParse.split_netloc in Hnet.
    destruct (startswith rest "//").
    - pose proof (span_until_fst "/?#" (drop 2 rest) c Hc) as Hspan.
      rewrite Hnet in Hspan. exact Hspan.
    - injection Hnet as <- _. reflexivity. }
  destruct (UrlParse.unbalanced_brackets netloc); [discriminate H|].
  destruct (UrlParse.split_once "#" rest') as [rest1 fragment].
  destruct (UrlParse.split_once "?" rest1) as [rest2 query].
  destruct (if (mem scheme UrlParse.uses_params && char_in ";" rest2)%bool
            then UrlParse._splitparams rest2 else (rest2, "")) as [path params].
  injection H as <-. exact Hfree.
Qed.

Lemma string_of_uint_digits (d : Decimal.uint) (c : ascii) :
  char_in c "/?#" = true -> char_in c (NilEmpty.string_of_uint d) = false.
Proof.
  intros Hc.
  assert (Hne : forall x, char_in x "0123456789-" = true -> Ascii.eqb c x = false).
  { intros x Hx. destruct (Ascii.eqb c x) eqn:E; [|reflexivity].
    apply Ascii.eqb_eq in E. subst x. revert Hc Hx.
    destruct c as [[] [] [] [] [] [] [] []]; vm_compute; congruence. }
  induction d; simpl; try reflexivity; rewrite IHd, orb_false_r; apply Hne; reflexivity.
Qed.

Lemma str_of_int_free_of_delimiters (n : Z) (c : ascii) :
  char_in c "/?#" = true -> char_in c (str_of_int n) = false.
Proof.
  intros Hc. unfold str_of_int, NilEmpty.string_of_int.
  destruct (Z.to_int n) as [d|d].
  - now apply string_of_uint_digits.
  - simpl. rewrite (string_of_uint_digits d c Hc), orb_false_r.
    revert Hc. destruct c as [[] [] [] [] [] [] [] []]; vm_compute; congruence.
Qed.

(** X6: the safe file name stays inside the output directory: whatever
    the URL and the title, a name that [_get_safe_filename] returns holds
    none of the characters [/], [?] and [#]. *)
Theorem get_safe_filename_free_of_delimiters
        (url title : string) (now : Z) (name : string) (c : ascii) :
  VideoExtractor._get_safe_filename url title now = Returns name ->
  char_in c "/?#" = true ->
  char_in c name = false.
Proof.
  intros H Hc. pose proof (get_safe_filename_exact url title now) as Hexact.
  destruct (UrlParse.urlparse url) as [parsed|e] eqn:Hparsed;
    [|rewrite Hexact in H; discriminate H].
  cbv zeta in Hexact. rewrite Hexact in H.
  match type of H with
  | Returns ?built = _ => assert (Hname : name = built) by congruence
  end.
  rewrite Hname. clear H Hexact Hname. unfold VideoExtractor.domain_of.
  pose proof (netloc_free_of_delimiters url parsed c Hparsed Hc) as Hnet.
  assert (Hdomain : char_in c (replace (UrlParse.netloc parsed) "www." "") = false)
    by (apply char_in_replace_from; exact Hnet).
  assert (Hunderscore : char_in c "_" = false)
    by (revert Hc; destruct c as [[] [] [] [] [] [] [] []]; vm_compute; congruence).
  apply char_in_take. destruct title as [|t title].
  - rewrite !char_in_app, Hdomain, Hunderscore.
    now rewrite (str_of_int_free_of_delimiters now c Hc).
  - rewrite !char_in_app, Hdomain, Hunderscore. simpl orb.
    destruct (safe_title_of_shape (String t title)) as (Hchars & _ & _).
    apply (char_in_forallb _ c _ Hchars).
    revert Hc. destruct c as [[] [] [] [] [] [] [] []]; vm_compute; congruence.
Qed.

Lemma get_safe_filename_free_of_delimiters_witness :
  char_in "/" "example.com_ab-c" = false.
Proof.
  apply (get_safe_filename_free_of_delimiters
           "https://www.example.com/watch?v=1#t" "a/b c?" 0 "example.com_ab-c" "/");
    reflexivity.
Defined.

(* ===================================================================== *)
(** * Further facts: analyses and their report *)
(* ===================================================================== *)

(** X7: the two shapes of an analysis.  The analysis of a URL carries
    that URL.  Without an error it carries every key, the flag
    [requires_extraction] is the negation of [is_direct_video], and
    complexity and method agree with the flags: low and direct download
    for a direct video, else medium and [yt_dlp] on a streaming
    platform, else high and browser automation.  With an error it
    carries no other key. *)
Theorem analyze_url_consistent (url : string) :
  let a := VideoAnalyzer.analyze_url url in
  VideoAnalyzer.url a = url /\
  match VideoAnalyzer.error a with
  | None =>
      exists direct streaming,
        VideoAnalyzer.is_direct_video a = Some direct /\
        VideoAnalyzer.is_streaming_platform a = Some streaming /\
        VideoAnalyzer.requires_extraction a = Some (negb direct) /\
        VideoAnalyzer.estimated_complexity a
        = Some (if direct then "low" else if streaming then "medium" else "high") /\
        VideoAnalyzer.suggested_method a
        = Some (if direct then "direct_download"
                else if streaming then "yt_dlp" else "browser_automation") /\
        VideoAnalyzer.domain a <> None /\
        VideoAnalyzer.path a <> None
  | Some _ =>
      VideoAnalyzer.is_direct_video a = None /\
      VideoAnalyzer.is_streaming_platform a = None /\
      VideoAnalyzer.requires_extraction a = None /\
      VideoAnalyzer.estimated_complexity a = None /\
      VideoAnalyzer.suggested_method a = None /\
      VideoAnalyzer.domain a = None /\
      VideoAnalyzer.path a = None
  end.
Proof.
  unfold VideoAnalyzer.analyze_url, VideoAnalyzer.analyze_url_try,
    VideoAnalyzer._estimate_complexity, VideoAnalyzer._suggest_extraction_method,
    VideoAnalyzer._is_direct_video_url.
  destruct (UrlParse.urlparse url) as [parsed|e]; cbn [bind].
  - split; [reflexivity|]. cbn.
    eexists _, _. repeat split; discriminate.
  - split; [reflexivity|]. cbn. repeat split.
Qed.

Lemma analyze_url_keeps_url (url : string) :
  VideoAnalyzer.url (VideoAnalyzer.analyze_url url) = url.
Proof.
  unfold VideoAnalyzer.analyze_url, VideoAnalyzer.analyze_url_try,
    VideoAnalyzer._estimate_complexity, VideoAnalyzer._suggest_extraction_method,
    VideoAnalyzer._is_direct_video_url.
  destruct (UrlParse.urlparse url) as [parsed|e]; reflexivity.
Qed.

(** X8: [batch_analyze] returns one analysis per URL, in the order of
    the URLs, each carrying its URL; the report counts them all. *)
Theorem batch_analyze_keeps_urls (urls : list string) :
  map VideoAnalyzer.url (VideoAnalyzer.batch_analyze urls) = urls /\
  VideoAnalyzer.total_urls
    (VideoAnalyzer.generate_analysis_report (VideoAnalyzer.batch_analyze urls))
  = Z.of_nat (List.length urls).
Proof.
  unfold VideoAnalyzer.batch_analyze. split.
  - induction urls as [|u urls IH]; simpl; [reflexivity|].
    now rewrite analyze_url_keeps_url, IH.
  - cbn [VideoAnalyzer.generate_analysis_report VideoAnalyzer.total_urls].
    now rewrite length_map.
Qed.

Section Distribution.

Import VideoAnalyzer.

Lemma dict_get_incr_same (k : string) (d : list (string * Z)) :
  dict_get (incr k d) k 0 = dict_get d k 0 + 1.
Proof.
  unfold dict_get. induction d as [|[k' v] d IH]; simpl.
  - now rewrite String.eqb_refl.
  - destruct (String.eqb k k') eqn:E; simpl; rewrite E; [reflexivity|exact IH].
Qed.

Lemma dict_get_incr_other (k k' : string) (d : list (string * Z)) :
  k' <> k -> dict_get (incr k d) k' 0 = dict_get d k' 0.
Proof.
  intros Hne. unfold dict_get. induction d as [|[k0 v] d IH]; simpl.
  - apply String.eqb_neq in Hne. now rewrite Hne.
  - destruct (String.eqb k k0) eqn:E; simpl.
    + apply String.eqb_eq in E. subst k0.
      apply String.eqb_neq in Hne. now rewrite Hne.
    + destruct (String.eqb k' k0); [reflexivity|exact IH].
Qed.

Lemma incr_keys (k : string) (d : list (string * Z)) (x : string) :
  In x (map fst (incr k d)) <-> x = k \/ In x (map fst d).
Proof.
  induction d as [|[k0 v] d IH]; simpl; [intuition|].
  destruct (String.eqb k k0) eqn:E; simpl.
  - apply String.eqb_eq in E. subst k0. intuition.
  - rewrite IH. intuition.
Qed.

Lemma incr_nodup (k : string) (d : list (string * Z)) :
  NoDup (map fst d) -> NoDup (map fst (incr k d)).
Proof.
  induction d as [|[k0 v] d IH]; simpl; intros H.
  - constructor; [intros []|constructor].
  - inversion H as [|? ? Hnotin Hrest]; subst.
    destruct (String.eqb k k0) eqn:E; simpl; [now constructor|].
    constructor; [|now apply IH].
    rewrite incr_keys. intros [->|Hin]; [|now apply Hnotin].
    now rewrite String.eqb_refl in E.
Qed.

Lemma incr_total (k : string) (d : list (string * Z)) :
  fold_right Z.add 0 (map snd (incr k d)) = fold_right Z.add 0 (map snd d) + 1.
Proof.
  induction d as [|[k0 v] d IH]; simpl; [reflexivity|].
  destruct (String.eqb k k0); simpl; [lia|]. rewrite IH. lia.
Qed.

(** The distribution built by the counting loop of the report, for a
    key read off each analysis. *)
Lemma distribution_counts (key : Analysis -> string) (analyses : list Analysis) :
  forall d,
    NoDup (map fst d) ->
    let d' := fold_left (fun d a => incr (key a) d) analyses d in
    NoDup (map fst d') /\
    fold_right Z.add 0 (map snd d')
    = fold_right Z.add 0 (map snd d) + Z.of_nat (List.length analyses) /\
    forall k,
      dict_get d' k 0
      = dict_get d k 0
        + Z.of_nat (List.length
                      (List.filter (fun a => String.eqb (key a) k) analyses)).
Proof.
  induction analyses as [|a rest IH]; intros d Hd; cbn zeta.
  - simpl. repeat split; [exact Hd|lia|intros; lia].
  - cbn [fold_left].
    destruct (IH (incr (key a) d) (incr_nodup _ _ Hd)) as (Hnodup & Htotal & Hget).
    split; [exact Hnodup|]. split.
    + rewrite Htotal, incr_total. cbn [List.length]. lia.
    + intros k. rewrite Hget. cbn [List.filter].
      destruct (String.eqb (key a) k) eqn:E.
      * apply String.eqb_eq in E. rewrite <- E, dict_get_incr_same.
        cbn [List.length]. lia.
      * rewrite dict_get_incr_other; [reflexivity|].
        intros ->. now rewrite String.eqb_refl in E.
Qed.

End Distribution.

(** X9: the two distributions of the report count the analyses.  For
    every method, the entry of [method_distribution] is the number of
    analyses with that method, those without the key counted under
    ['unknown'] (zero when the method has no entry); no method is listed
    twice; the counts add up to [total_urls].  The same holds of
    [complexity_distribution]. *)
Theorem report_distributions_count (analyses : list VideoAnalyzer.Analysis) :
  let report := VideoAnalyzer.generate_analysis_report analyses in
  let counted key value :=
    Z.of_nat (List.length
                (List.filter
                   (fun a => String.eqb (VideoAnalyzer.get_or (key a) "unknown") value)
                   analyses)) in
  (forall method,
      VideoAnalyzer.dict_get (VideoAnalyzer.method_distribution report) method 0
      = counted VideoAnalyzer.suggested_method method) /\
  (forall complexity,
      VideoAnalyzer.dict_get (VideoAnalyzer.complexity_distribution report) complexity 0
      = counted VideoAnalyzer.estimated_complexity complexity) /\
  NoDup (map fst (VideoAnalyzer.method_distribution report)) /\
  NoDup (map fst (VideoAnalyzer.complexity_distribution report)) /\
  fold_right Z.add 0 (map snd (VideoAnalyzer.method_distribution report))
  = VideoAnalyzer.total_urls report /\
  fold_right Z.add 0 (map snd (VideoAnalyzer.complexity_distribution report))
  = VideoAnalyzer.total_urls report.
Proof.
  intros report counted. subst report counted.
  cbn [VideoAnalyzer.generate_analysis_report VideoAnalyzer.method_distribution
       VideoAnalyzer.complexity_distribution VideoAnalyzer.total_urls].
  destruct (distribution_counts
              (fun a => VideoAnalyzer.get_or (VideoAnalyzer.suggested_method a) "unknown")
              analyses [] (NoDup_nil _)) as (Hn1 & Ht1 & Hg1).
  destruct (distribution_counts
              (fun a => VideoAnalyzer.get_or (VideoAnalyzer.estimated_complexity a) "unknown")
              analyses [] (NoDup_nil _)) as (Hn2 & Ht2 & Hg2).
  repeat split.
  - intros method. now rewrite Hg1.
  - intros complexity. now rewrite Hg2.
  - exact Hn1.
  - exact Hn2.
  - exact Ht1.
  - exact Ht2.
Qed.

Section ProbabilityBounds.

Import VideoAnalyzer.

Local Open Scope Q_scope.




End ProbabilityBounds.



(* ===================================================================== *)
(** * Further facts: the VPN manager *)
(* ===================================================================== *)

(** X11: [disconnect] always returns a flag and never touches the state
    of the manager: in particular the server recorded by an earlier
    connect stays in [current_server].  The flag is [True] exactly when
    the VPN is disabled or the client exits with code 0; the client is
    called once when the VPN is enabled and not at all otherwise. *)
Theorem disconnect_keeps_state (self : VPNManager.t) (env : VPNManager.Env) :
  let '(r, self', trace) := VPNManager.disconnect self env in
  self' = self /\
  (exists ok,
      r = Returns ok /\
      (ok = true <->
       VPNManager.enabled self = false \/
       exists result,
         VPNManager.disconnect_run env = Returns result /\
         VPNManager.returncode result = 0)) /\
  trace = (if VPNManager.enabled self
           then [VPNManager.Run "nordvpn disconnect" 15] else []).
Proof.
  unfold VPNManager.disconnect.
  destruct (VPNManager.enabled self); cbn [negb].
  - destruct (VPNManager.disconnect_run env) as [result|e] eqn:Hrun.
    + split; [reflexivity|]. split; [|reflexivity].
      eexists. split; [reflexivity|]. rewrite Z.eqb_eq. split.
      * intros H. right. now exists result.
      * intros [H|(result' & [= <-] & H)]; [discriminate H|exact H].
    + split; [reflexivity|]. split; [|reflexivity].
      eexists. split; [reflexivity|]. split; [discriminate|].
      intros [H|(result' & H & _)]; discriminate H.
  - split; [reflexivity|]. split; [|reflexivity].
    eexists. split; [reflexivity|]. split; auto.
Qed.

(** X12: the time bounds of the rotation.  With the VPN enabled and no
    [force], whatever the random sample: up to 300 seconds after the
    last rotation nothing is done, and more than 1800 seconds after it a
    rotation is started, by a disconnect and a pause. *)
Theorem rotate_if_needed_time_bounds (self : VPNManager.t) (env : VPNManager.Env) :
  VPNManager.enabled self = true ->
  VPNManager.sample_in_range env ->
  let elapsed := VPNManager.now_rotate env - VPNManager.last_rotation self in
  (elapsed <= VPNManager.microseconds 300 ->
   VPNManager.rotate_if_needed self false env = (Returns true, self, [])) /\
  (VPNManager.microseconds 1800 < elapsed ->
   exists r self' rest,
     VPNManager.rotate_if_needed self false env
     = (r, self',
        VPNManager.Run "nordvpn disconnect" 15 :: VPNManager.Sleep 1 3 :: rest)).
Proof.
  intros Hen [Hlo Hhi] elapsed. subst elapsed.
  unfold VPNManager.rotate_if_needed, VPNManager.disconnect.
  rewrite Hen. cbn [negb orb]. unfold VPNManager.microseconds in *. split.
  - intros Hearly.
    assert (Hnot : (VPNManager.randint_300_1800 env * 1000000
                    <? VPNManager.now_rotate env - VPNManager.last_rotation self)
                   = false) by (apply Z.ltb_ge; lia).
    now rewrite Hnot.
  - intros Hlate.
    assert (Hdue : (VPNManager.randint_300_1800 env * 1000000
                    <? VPNManager.now_rotate env - VPNManager.last_rotation self)
                   = true) by (apply Z.ltb_lt; lia).
    rewrite Hdue.
    destruct (VPNManager.disconnect_run env);
      destruct (VPNManager.connect_to_random_server self env) as [[r s] tr];
      now exists r, s, tr.
Qed.

Lemma rotate_if_needed_time_bounds_witness :
  let env :=
    {| VPNManager.choice := 3;
       VPNManager.connect_run :=
         Returns {| VPNManager.returncode := 0; VPNManager.stderr := "" |};
       VPNManager.disconnect_run :=
         Returns {| VPNManager.returncode := 1; VPNManager.stderr := "" |};
       VPNManager.now_rotate := 1800000001;
       VPNManager.now_connected := 1800000002;
       VPNManager.randint_300_1800 := 1800 |} in
  exists r self' rest,
    VPNManager.rotate_if_needed (VPNManager.init true 0) false env
    = (r, self',
       VPNManager.Run "nordvpn disconnect" 15 :: VPNManager.Sleep 1 3 :: rest).
Proof.
  intros env.
  apply (rotate_if_needed_time_bounds (VPNManager.init true 0) env).
  - reflexivity.
  - unfold VPNManager.sample_in_range. simpl. lia.
  - reflexivity.
Defined.

(** X13: what a call of [rotate_if_needed] leaves behind.  It always
    returns a flag.  When the flag is [False] the state is as before, so
    a failed rotation keeps the old [last_rotation] and stays due.  When
    the state has changed, the flag is [True], [last_rotation] is the
    clock reading taken after the connect and [current_server] is one of
    the eight countries. *)
Theorem rotate_if_needed_state (self : VPNManager.t) (force : bool)
        (env : VPNManager.Env) :
  let '(r, self', trace) := VPNManager.rotate_if_needed self force env in
  (exists ok, r = Returns ok) /\
  (r = Returns false -> self' = self) /\
  (self' <> self ->
   r = Returns true /\
   VPNManager.enabled self' = VPNManager.enabled self /\
   VPNManager.last_rotation self' = VPNManager.now_connected env /\
   exists country,
     In country VPNManager.countries /\
     VPNManager.current_server self' = Some country).
Proof.
  unfold VPNManager.rotate_if_needed, VPNManager.disconnect,
    VPNManager.connect_to_random_server, VPNManager.connect_try.
  destruct (VPNManager.enabled self) eqn:Hen; cbn [negb];
    [|split; [eauto|]; split; [reflexivity|]; intros H; now elim H].
  destruct (force || _)%bool;
    [|split; [eauto|]; split; [reflexivity|]; intros H; now elim H].
  destruct (VPNManager.disconnect_run env) as [result|e];
    cbv beta iota zeta; rewrite Hen; cbn [negb];
    (destruct (VPNManager.connect_run env) as [result'|e'];
     [destruct (VPNManager.returncode result' =? 0)|destruct e']);
    cbv beta iota zeta;
    (split; [eauto|]; split; [first [reflexivity|discriminate]|]; intros H;
     first [now elim H
           |repeat split; eexists;
            split; [apply chosen_country_in_countries|reflexivity]]).
Qed.

(* ===================================================================== *)
(** * Further facts: the login step with credentials *)
(* ===================================================================== *)



(* ===================================================================== *)
(** * Further facts: the simulated click and the simulated reading *)
(* ===================================================================== *)

(** X15: [human_click] always returns a flag.  The flag is [True]
    exactly when the element is found and none of the four calls on the
    page raises, and the trace is then the full sequence wait, scroll,
    pause, hover, pause, click, pause.  The element is not clicked
    unless it was found, scrolled into view and hovered without an
    exception.  When the element is not found, or waiting for it raises,
    nothing else is done to the page. *)
Theorem human_click_flag (env : HumanBehaviorSimulator.Env) (selector : string) :
  let wait := HumanBehaviorSimulator.WaitForSelector selector 10000 in
  let scroll := HumanBehaviorSimulator.ScrollIntoView selector in
  let hover := HumanBehaviorSimulator.Hover selector in
  let click := HumanBehaviorSimulator.Click selector in
  let raises := HumanBehaviorSimulator.raises env in
  let '(r, trace) := HumanBehaviorSimulator.human_click env selector in
  exists ok,
    r = Returns ok /\
    (ok = true <->
     raises wait = None /\ HumanBehaviorSimulator.found env selector = true /\
     raises scroll = None /\ raises hover = None /\ raises click = None) /\
    (ok = true ->
     trace = [ wait; scroll; HumanBehaviorSimulator.RandomDelay (1 # 2) 1;
               hover; HumanBehaviorSimulator.RandomDelay (3 # 10) (8 # 10);
               click; HumanBehaviorSimulator.RandomDelay 1 2 ]) /\
    (In click trace ->
     raises wait = None /\ HumanBehaviorSimulator.found env selector = true /\
     raises scroll = None /\ raises hover = None) /\
    (raises wait <> None \/ HumanBehaviorSimulator.found env selector = false ->
     trace = [wait]).
Proof.
  cbn zeta.
  unfold HumanBehaviorSimulator.human_click, HumanBehaviorSimulator.human_click_try,
    HumanBehaviorSimulator.bindM, HumanBehaviorSimulator.perform,
    HumanBehaviorSimulator.pause, HumanBehaviorSimulator.ret.
  destruct (HumanBehaviorSimulator.raises env
              (HumanBehaviorSimulator.WaitForSelector selector 10000)) as [e1|] eqn:H1;
    cbn [app].
  { exists false. split; [reflexivity|]. split; [|split; [discriminate|split]].
    - split; [discriminate|]. intros (H & _). discriminate H.
    - intros [H|[]]. discriminate H.
    - reflexivity. }
  destruct (HumanBehaviorSimulator.found env selector) eqn:Hfound; cbn [negb app].
  2: { exists false. split; [reflexivity|]. split; [|split; [discriminate|split]].
       - split; [discriminate|]. intros (_ & H & _). discriminate H.
       - intros [H|[]]. discriminate H.
       - reflexivity. }
  destruct (HumanBehaviorSimulator.raises env
              (HumanBehaviorSimulator.ScrollIntoView selector)) as [e2|] eqn:H2;
    cbn [app].
  { exists false. split; [reflexivity|]. split; [|split; [discriminate|split]].
    - split; [discriminate|]. intros (_ & _ & H & _). discriminate H.
    - intros [H|[H|[]]]; discriminate H.
    - intros [H|H]; [now elim H|discriminate H]. }
  destruct (HumanBehaviorSimulator.raises env
              (HumanBehaviorSimulator.Hover selector)) as [e3|] eqn:H3; cbn [app].
  { exists false. split; [reflexivity|]. split; [|split; [discriminate|split]].
    - split; [discriminate|]. intros (_ & _ & _ & H & _). discriminate H.
    - intros [H|[H|[H|[H|[]]]]]; discriminate H.
    - intros [H|H]; [now elim H|discriminate H]. }
  destruct (HumanBehaviorSimulator.raises env
              (HumanBehaviorSimulator.Click selector)) as [e4|] eqn:H4; cbn [app].
  { exists false. split; [reflexivity|]. split; [|split; [discriminate|split]].
    - split; [discriminate|]. intros (_ & _ & _ & _ & H). discriminate H.
    - intros _. repeat split.
    - intros [H|H]; [now elim H|discriminate H]. }
  exists true. split; [reflexivity|]. split; [|split; [reflexivity|split]].
  - split; [intros _; repeat split|reflexivity].
  - intros _. repeat split.
  - intros [H|H]; [now elim H|discriminate H].
Qed.

Section Reading.

Import HumanBehaviorSimulator.

Local Open Scope Q_scope.

Lemma inject_Z_succ (n : nat) :
  inject_Z (Z.of_nat (S n)) == inject_Z (Z.of_nat n) + 1.
Proof.
  rewrite Nat2Z.inj_succ. unfold Z.succ. now rewrite inject_Z_plus.
Qed.

(** The rounds of the loop, on a page whose scripts do not raise. *)
Lemma reading_rounds_trace (env : Env) (share : Q) (rounds : nat) :
  (forall script, raises env (Evaluate script) = None) ->
  forall round trace,
    exists added,
      reading_rounds env share rounds round trace = (Returns tt, (trace ++ added)%list) /\
      slept added == share * inject_Z (Z.of_nat rounds) /\
      List.length (List.filter is_evaluate added) = rounds.
Proof.
  intros Hquiet. induction rounds as [|rounds IH]; intros round trace.
  - exists []. cbn [reading_rounds ret]. rewrite app_nil_r.
    split; [reflexivity|]. split; [|reflexivity]. simpl. ring.
  - cbn [reading_rounds]. unfold bindM at 1. unfold pause at 1.
    unfold bindM at 1. unfold perform at 1. rewrite Hquiet.
    destruct (IH (S round)
                 ((trace ++ [Sleep share]) ++
                  [Evaluate ("window.scrollBy(0, "
                             ++ str_of_int (scroll_distance env round) ++ ")")])%list)
      as (added & Hrun & Hslept & Hcount).
    exists (Sleep share
            :: Evaluate ("window.scrollBy(0, "
                         ++ str_of_int (scroll_distance env round) ++ ")")
            :: added).
    split; [|split].
    + rewrite Hrun. f_equal. rewrite <- !app_assoc. reflexivity.
    + cbn [slept]. rewrite Hslept, inject_Z_succ. ring.
    + cbn [List.filter is_evaluate List.length]. now rewrite Hcount.
Qed.

End Reading.

(** X16: the simulated reading on a page whose scripts do not raise.
    It scrolls as many times as drawn and sleeps
    [reading_time / (scroll_times + 1)] before each scroll, that is
    [reading_time * scroll_times / (scroll_times + 1)] in all: always
    less than the reading time drawn, when that is positive. *)
Theorem simulate_reading_sleeps (env : HumanBehaviorSimulator.Env) :
  (forall script,
      HumanBehaviorSimulator.raises env (HumanBehaviorSimulator.Evaluate script) = None) ->
  let n := inject_Z (Z.of_nat (HumanBehaviorSimulator.scroll_times env)) in
  let '(r, trace) := HumanBehaviorSimulator.simulate_reading env in
  r = Returns tt /\
  List.length (List.filter HumanBehaviorSimulator.is_evaluate trace)
  = HumanBehaviorSimulator.scroll_times env /\
  (HumanBehaviorSimulator.slept trace * (n + 1)
   == HumanBehaviorSimulator.reading_time env * n)%Q /\
  ((0 < HumanBehaviorSimulator.reading_time env)%Q ->
   (HumanBehaviorSimulator.slept trace < HumanBehaviorSimulator.reading_time env)%Q).
Proof.
  intros Hquiet. cbn zeta. unfold HumanBehaviorSimulator.simulate_reading.
  set (n := inject_Z (Z.of_nat (HumanBehaviorSimulator.scroll_times env))).
  assert (Hn : (0 <= n)%Q) by (unfold n, Qle; simpl; lia).
  assert (Hdiv : (inject_Z (Z.of_nat (HumanBehaviorSimulator.scroll_times env) + 1)
                  == n + 1)%Q) by (unfold n; now rewrite inject_Z_plus).
  set (share := (HumanBehaviorSimulator.reading_time env
                 / inject_Z (Z.of_nat (HumanBehaviorSimulator.scroll_times env) + 1))%Q).
  assert (Hshare : (share * (n + 1) == HumanBehaviorSimulator.reading_time env)%Q).
  { unfold share. rewrite Hdiv. field. lra. }
  destruct (reading_rounds_trace env share (HumanBehaviorSimulator.scroll_times env)
              Hquiet O []) as (added & Hrun & Hslept & Hcount).
  rewrite Hrun. cbn [app]. fold n in Hslept.
  split; [reflexivity|]. split; [exact Hcount|]. split.
  - rewrite Hslept, <- Hshare. ring.
  - intros Hpos. rewrite Hslept.
    assert (Hsharepos : (0 < share)%Q).
    { unfold share. apply Qlt_shift_div_l; [rewrite Hdiv; lra|].
      now rewrite Qmult_0_l. }
    rewrite <- Hshare. rewrite Qmult_plus_distr_r, Qmult_1_r. lra.
Qed.

Lemma simulate_reading_sleeps_witness :
  let env :=
    {| HumanBehaviorSimulator.found := fun _ => true;
       HumanBehaviorSimulator.raises := fun _ => None;
       HumanBehaviorSimulator.reading_time := 6;
       HumanBehaviorSimulator.scroll_times := 2;
       HumanBehaviorSimulator.scroll_distance := fun round => 100 + Z.of_nat round |} in
  (HumanBehaviorSimulator.slept (snd (HumanBehaviorSimulator.simulate_reading env)) < 6)%Q.
Proof.
  intros env.
  pose proof (simulate_reading_sleeps env (fun _ => eq_refl)) as H.
  cbn zeta in H.
  destruct (HumanBehaviorSimulator.simulate_reading env) as [r trace].
  destruct H as (_ & _ & _ & H). apply H. reflexivity.
Defined.

(** A run of the simulated reading. *)
Example simulate_reading_run :
  HumanBehaviorSimulator.simulate_reading
    {| HumanBehaviorSimulator.found := fun _ => true;
       HumanBehaviorSimulator.raises := fun _ => None;
       HumanBehaviorSimulator.reading_time := 6;
       HumanBehaviorSimulator.scroll_times := 2;
       HumanBehaviorSimulator.scroll_distance := fun round => 100 + Z.of_nat round |}
  = (Returns tt,
     [ HumanBehaviorSimulator.Sleep (6 / inject_Z 3);
       HumanBehaviorSimulator.Evaluate "window.scrollBy(0, 100)";
       HumanBehaviorSimulator.Sleep (6 / inject_Z 3);
       HumanBehaviorSimulator.Evaluate "window.scrollBy(0, 101)" ]).
Proof. reflexivity. Qed.

(* ===================================================================== *)
(** * Further facts: the history of the performance monitor *)
(* ===================================================================== *)

Section History.

Import PerformanceMonitor.

Context {A : Type}.

Lemma last_n_all (n : nat) (l : list A) :
  (List.length l <= n)%nat -> last_n n l = l.
Proof.
  intros H. unfold last_n. replace (List.length l - n)%nat with O by lia.
  reflexivity.
Qed.

Lemma last_n_length (n : nat) (l : list A) :
  List.length (last_n n l) = Nat.min (List.length l) n.
Proof. unfold last_n. rewrite length_skipn. lia. Qed.

Lemma last_n_snoc (n : nat) (l : list A) (x : A) :
  last_n (S n) (l ++ [x]) = (last_n n l ++ [x])%list.
Proof.
  unfold last_n. rewrite length_app. cbn [List.length].
  replace (List.length l + 1 - S n)%nat with (List.length l - n)%nat by lia.
  rewrite skipn_app.
  replace (List.length l - n - List.length l)%nat with O by lia.
  reflexivity.
Qed.

Lemma last_n_last_n (k n : nat) (l : list A) :
  (k <= n)%nat -> last_n k (last_n n l) = last_n k l.
Proof.
  intros H. unfold last_n. rewrite length_skipn, skipn_skipn.
  f_equal. lia.
Qed.

(** Appending to the last [S n] elements and keeping the last [S n]
    again is keeping the last [S n] of the longer list. *)
Lemma last_n_step (n : nat) (l : list A) (x : A) :
  last_n (S n) (last_n (S n) l ++ [x]) = last_n (S n) (l ++ [x]).
Proof.
  rewrite !last_n_snoc. now rewrite last_n_last_n by lia.
Qed.

End History.

Lemma capture_metrics_history (self : PerformanceMonitor.t) (env : PerformanceMonitor.Env)
      (active_downloads : Z) (sample : PerformanceMonitor.Sample) :
  PerformanceMonitor.psutil env = Returns sample ->
  PerformanceMonitor.metrics_history
    (snd (PerformanceMonitor.capture_metrics self env active_downloads))
  = PerformanceMonitor.last_n 1000
      (PerformanceMonitor.metrics_history self
       ++ [fst (PerformanceMonitor.capture_metrics PerformanceMonitor.init env
                  active_downloads)]).
Proof.
  intros Hsample. unfold PerformanceMonitor.capture_metrics. rewrite Hsample.
  cbn [snd fst PerformanceMonitor.metrics_history].
  destruct (Nat.ltb 1000 _) eqn:E; [reflexivity|].
  apply Nat.ltb_ge in E. now rewrite last_n_all.
Qed.

Lemma captures_history (calls : list (PerformanceMonitor.Env * Z)) :
  forall (self : PerformanceMonitor.t) (before : list PerformanceMetrics.t),
    PerformanceMonitor.metrics_history self = PerformanceMonitor.last_n 1000 before ->
    PerformanceMonitor.metrics_history (PerformanceMonitor.captures calls self)
    = PerformanceMonitor.last_n 1000 (before ++ PerformanceMonitor.captured calls).
Proof.
  induction calls as [|[env active] calls IH]; intros self before Hself.
  - simpl. now rewrite app_nil_r.
  - unfold PerformanceMonitor.captures. cbn [fold_left fst snd].
    fold (PerformanceMonitor.captures calls
            (snd (PerformanceMonitor.capture_metrics self env active))).
    cbn [PerformanceMonitor.captured flat_map fst snd].
    fold (PerformanceMonitor.captured calls).
    destruct (PerformanceMonitor.psutil env) as [sample|e] eqn:Hsample.
    + rewrite (IH _ (before ++ [fst (PerformanceMonitor.capture_metrics
                                       PerformanceMonitor.init env active)])%list).
      * now rewrite <- app_assoc.
      * rewrite (capture_metrics_history self env active sample Hsample), Hself.
        change 1000%nat with (S 999). apply last_n_step.
    + cbn [app]. apply IH.
      unfold PerformanceMonitor.capture_metrics. rewrite Hsample. exact Hself.
Qed.

(** X17: the history of the monitor after any run of captures, begun
    with a fresh monitor, is the last 1000 of the metrics captured
    without failure, in their order; so it never holds more than 1000
    entries, and a failed capture adds none. *)
Theorem captures_keep_last_1000 (calls : list (PerformanceMonitor.Env * Z)) :
  let history :=
    PerformanceMonitor.metrics_history
      (PerformanceMonitor.captures calls PerformanceMonitor.init) in
  history = PerformanceMonitor.last_n 1000 (PerformanceMonitor.captured calls) /\
  List.length history
  = Nat.min (List.length (PerformanceMonitor.captured calls)) 1000 /\
  (List.length history <= 1000)%nat.
Proof.
  cbn zeta.
  assert (H : PerformanceMonitor.metrics_history
                (PerformanceMonitor.captures calls PerformanceMonitor.init)
              = PerformanceMonitor.last_n 1000 (PerformanceMonitor.captured calls)).
  { rewrite (captures_history calls PerformanceMonitor.init []); reflexivity. }
  rewrite H. split; [reflexivity|]. rewrite last_n_length. lia.
Qed.

Section Averages.

Import PerformanceMonitor.

(** The running maximum of the loop of [max]. *)
Lemma max_of_spec (f : PerformanceMetrics.t -> Z) (rest : list PerformanceMetrics.t) :
  forall first,
    let best := max_of f first rest in
    (forall m, In m (first :: rest) -> f m <= best) /\
    (exists m, In m (first :: rest) /\ f m = best).
Proof.
  unfold max_of. induction rest as [|x rest IH]; intros first; cbn zeta.
  - simpl. split.
    + intros m [<-|[]]. lia.
    + exists first. split; [now left|reflexivity].
  - cbn [fold_left].
    assert (Hgen : forall start,
               let best := fold_left (fun best m => if best <? f m then f m else best)
                                     rest start in
               start <= best /\
               (forall m, In m rest -> f m <= best) /\
               (best = start \/ exists m, In m rest /\ f m = best)).
    { clear. induction rest as [|y rest IHr]; intros start; cbn zeta.
      - simpl. split; [lia|]. split; [intros m []|now left].
      - cbn [fold_left].
        destruct (IHr (if start <? f y then f y else start)) as (Hle & Hall & Hex).
        cbn zeta in Hle, Hall, Hex.
        destruct (start <? f y) eqn:E.
        + apply Z.ltb_lt in E. split; [lia|]. split.
          * intros m [<-|Hin]; [exact Hle|now apply Hall].
          * right. destruct Hex as [->|(m & Hin & Hm)].
            -- exists y. split; [now left|reflexivity].
            -- exists m. split; [now right|exact Hm].
        + apply Z.ltb_ge in E. split; [exact Hle|]. split.
          * intros m [<-|Hin]; [lia|now apply Hall].
          * destruct Hex as [->|(m & Hin & Hm)]; [now left|].
            right. exists m. split; [now right|exact Hm]. }
    destruct (Hgen (if f first <? f x then f x else f first)) as (Hle & Hall & Hex).
    cbn zeta in Hle, Hall, Hex.
    destruct (f first <? f x) eqn:E.
    + apply Z.ltb_lt in E. split.
      * intros m [<-|[<-|Hin]]; [lia|exact Hle|now apply Hall].
      * destruct Hex as [->|(m & Hin & Hm)].
        -- exists x. split; [right; now left|reflexivity].
        -- exists m. split; [right; now right|exact Hm].
    + apply Z.ltb_ge in E. split.
      * intros m [<-|[<-|Hin]]; [exact Hle|lia|now apply Hall].
      * destruct Hex as [->|(m & Hin & Hm)].
        -- exists first. split; [now left|reflexivity].
        -- exists m. split; [right; now right|exact Hm].
Qed.

End Averages.

(** X18: the averages of the monitor.  [get_average_metrics] returns
    the empty dict exactly when no metric of the history is as recent as
    the cut-off.  Otherwise [total_metrics_count] is the number of
    recent metrics, which is positive, and [max_active_downloads] is the
    largest number of active downloads among them: no recent metric
    exceeds it and one of them has it. *)
Theorem get_average_metrics_recent (self : PerformanceMonitor.t) (now minutes : Z) :
  let cutoff_time := now - minutes * 60 * 1000000 in
  let recent m := cutoff_time <=? PerformanceMetrics.timestamp m in
  let recent_metrics := List.filter recent (PerformanceMonitor.metrics_history self) in
  match PerformanceMonitor.get_average_metrics self now minutes with
  | None =>
      forall m, In m (PerformanceMonitor.metrics_history self) ->
                PerformanceMetrics.timestamp m < cutoff_time
  | Some averages =>
      PerformanceMonitor.total_metrics_count averages
      = Z.of_nat (List.length recent_metrics) /\
      0 < PerformanceMonitor.total_metrics_count averages /\
      (forall m, In m recent_metrics ->
                 PerformanceMetrics.active_downloads m
                 <= PerformanceMonitor.max_active_downloads averages) /\
      (exists m, In m recent_metrics /\
                 PerformanceMetrics.active_downloads m
                 = PerformanceMonitor.max_active_downloads averages)
  end.
Proof.
  cbn zeta. unfold PerformanceMonitor.get_average_metrics.
  destruct (List.filter _ (PerformanceMonitor.metrics_history self))
    as [|first rest] eqn:Hrecent.
  - intros m Hin.
    destruct (now - minutes * 60 * 1000000 <=? PerformanceMetrics.timestamp m) eqn:E.
    + assert (Hm : In m (List.filter
                          (fun m => now - minutes * 60 * 1000000
                                    <=? PerformanceMetrics.timestamp m)
                          (PerformanceMonitor.metrics_history self)))
        by (apply filter_In; now split).
      rewrite Hrecent in Hm. destruct Hm.
    + now apply Z.leb_gt in E.
  - cbn [PerformanceMonitor.total_metrics_count PerformanceMonitor.max_active_downloads].
    split; [reflexivity|]. split; [cbn [List.length]; lia|].
    apply (max_of_spec PerformanceMetrics.active_downloads rest first).
Qed.

(* ===================================================================== *)
(** * Further facts: the console tables *)
(* ===================================================================== *)

Lemma append_length (a b : string) :
  String.length (a ++ b) = (String.length a + String.length b)%nat.
Proof.
  induction a as [|c a IH]; simpl; [reflexivity|]. now rewrite IH.
Qed.

Lemma take_length_exact (n : nat) (s : string) :
  (n <= String.length s)%nat -> String.length (take n s) = n.
Proof.
  revert s. induction n as [|n IH]; intros [|c s] H; simpl in *; try lia.
  rewrite IH; lia.
Qed.

Lemma startswith_take (n : nat) (s : string) : startswith s (take n s) = true.
Proof.
  revert s. induction n as [|n IH]; intros [|c s]; simpl; try reflexivity.
  now rewrite Ascii.eqb_refl, IH.
Qed.

(** X19: the URL cell of the analysis table never holds more than 40
    characters.  A URL of at most 40 characters is shown as it is; a
    longer one is cut to its first 37 characters followed by three
    dots, 40 characters in all. *)
Theorem url_cell_width (url : string) :
  (String.length (RichDisplay.url_cell url) <= 40)%nat /\
  ((String.length url <= 40)%nat -> RichDisplay.url_cell url = url) /\
  ((40 < String.length url)%nat ->
   RichDisplay.url_cell url = take 37 url ++ "..." /\
   String.length (RichDisplay.url_cell url) = 40%nat /\
   startswith url (take 37 (RichDisplay.url_cell url)) = true).
Proof.
  unfold RichDisplay.url_cell.
  destruct (Nat.ltb 40 (String.length url)) eqn:E.
  - apply Nat.ltb_lt in E.
    assert (Hlen : String.length (take 37 url ++ "...") = 40%nat).
    { rewrite append_length, take_length_exact by lia. reflexivity. }
    split; [lia|]. split; [lia|]. intros _.
    split; [reflexivity|]. split; [exact Hlen|].
    assert (Hsame : take 37 (take 37 url ++ "...") = take 37 url).
    { assert (H37 : String.length (take 37 url) = 37%nat)
        by (apply take_length_exact; lia).
      revert H37. generalize (take 37 url) as t. generalize 37%nat as n.
      induction n as [|n IH]; intros [|c t] H; simpl in *; try lia; try reflexivity.
      rewrite IH; [reflexivity|lia]. }
    rewrite Hsame. apply startswith_take.
  - apply Nat.ltb_ge in E. split; [exact E|]. split; [reflexivity|lia].
Qed.

(** X20: the rows the analysis table shows for the analyses of
    [analyze_url]: type, complexity and method are one of five
    combinations; a direct video on a streaming domain is shown as
    streaming, and the error report as an extraction of unknown
    complexity and method. *)
Theorem analysis_row_of_analyze_url (url : string) :
  let '(_, _, video_type, complexity, method) :=
    RichDisplay.analysis_row (VideoAnalyzer.analyze_url url) in
  In (video_type, complexity, method)
     [ ("Direkt", "Low", "Direct Download");
       ("Streaming", "Low", "Direct Download");
       ("Streaming", "Medium", "Yt Dlp");
       ("Extraction", "High", "Browser Automation");
       ("Extraction", "Unknown", "Unknown") ].
Proof.
  unfold RichDisplay.analysis_row, VideoAnalyzer.analyze_url,
    VideoAnalyzer.analyze_url_try, VideoAnalyzer._estimate_complexity,
    VideoAnalyzer._suggest_extraction_method, VideoAnalyzer._is_direct_video_url.
  destruct (UrlParse.urlparse url) as [parsed|e]; cbn [bind].
  - fold (VideoAnalyzer.has_video_extension parsed).
    fold (VideoAnalyzer.domain_of parsed).
    destruct (VideoAnalyzer.has_video_extension parsed);
      destruct (mem (VideoAnalyzer.domain_of parsed) VideoAnalyzer.streaming_domains);
      cbn; auto 6.
  - cbn. auto 6.
Qed.

(** X21: the summary of the results.  For an empty list of results the
    two counts, both 0, are printed and the division then raises.  For
    every other list three lines are printed: the number of successes,
    the number of failures, which add up to the number of results, and
    the rate of the successes, a percentage between 0 and 100. *)
Theorem display_progress_summary_lines (results : list DownloadResult.t) :
  let '(r, lines) := RichDisplay.display_progress_summary results in
  (results = [] ->
   r = Raises (OtherException "division by zero") /\
   lines = [RichDisplay.Successful 0; RichDisplay.Failed 0]) /\
  (results <> [] ->
   r = Returns tt /\
   exists successful failed rate,
     lines = [ RichDisplay.Successful successful; RichDisplay.Failed failed;
               RichDisplay.SuccessRate rate ] /\
     successful = Z.of_nat (List.length (List.filter DownloadResult.success results)) /\
     successful + failed = Z.of_nat (List.length results) /\
     0 <= successful /\ 0 <= failed /\
     (rate * inject_Z (Z.of_nat (List.length results)) == inject_Z successful * 100)%Q /\
     (0 <= rate)%Q /\ (rate <= 100)%Q).
Proof.
  unfold RichDisplay.display_progress_summary, RichDisplay.truediv.
  destruct results as [|first rest].
  - simpl. split; [split; reflexivity|]. intros H. now elim H.
  - set (results := first :: rest).
    set (successful := Z.of_nat (List.length (List.filter DownloadResult.success results))).
    assert (Hlen : 0 < Z.of_nat (List.length results)) by (unfold results; simpl; lia).
    assert (Hle : successful <= Z.of_nat (List.length results)).
    { unfold successful. apply Nat2Z.inj_le. apply filter_length_le. }
    assert (Hpos : 0 <= successful) by (unfold successful; lia).
    destruct (Z.of_nat (List.length results) =? 0) eqn:E;
      [apply Z.eqb_eq in E; lia|].
    split; [intros H; discriminate H|]. intros _. split; [reflexivity|].
    eexists _, _, _. split; [reflexivity|].
    split; [reflexivity|]. split; [lia|]. split; [exact Hpos|]. split; [lia|].
    assert (HlenQ : (0 < inject_Z (Z.of_nat (List.length results)))%Q)
      by (unfold Qlt, inject_Z; cbn [Qnum Qden]; lia).
    assert (HleQ : (inject_Z successful <= inject_Z (Z.of_nat (List.length results)))%Q)
      by (unfold Qle, inject_Z; cbn [Qnum Qden]; lia).
    assert (HposQ : (0 <= inject_Z successful)%Q)
      by (unfold Qle, inject_Z; cbn [Qnum Qden]; lia).
    split; [field; lra|].
    assert (Hratio : (0 <= inject_Z successful / inject_Z (Z.of_nat (List.length results))
                      /\ inject_Z successful / inject_Z (Z.of_nat (List.length results)) <= 1)%Q).
    { split.
      - apply Qle_shift_div_l; [exact HlenQ|]. now rewrite Qmult_0_l.
      - apply Qle_shift_div_r; [exact HlenQ|]. now rewrite Qmult_1_l. }
    destruct Hratio as [Hlo Hhi]. split; lra.
Qed.

Lemma display_progress_summary_lines_witness :
  RichDisplay.display_progress_summary [] 
  = (Raises (OtherException "division by zero"),
     [RichDisplay.Successful 0; RichDisplay.Failed 0]).
Proof.
  pose proof (display_progress_summary_lines []) as H.
  destruct (RichDisplay.display_progress_summary []) as [r lines].
  destruct H as [H _]. destruct (H eq_refl) as [-> ->]. reflexivity.
Defined.

(* ===================================================================== *)
(** * Further facts: the URLs read at the prompt *)
(* ===================================================================== *)

Lemma interactive_mode_collects (inputs : list Prompt.input_event) :
  forall urls0 urls,
    Prompt.interactive_mode inputs urls0 = Returns urls ->
    exists added,
      urls = (urls0 ++ added)%list /\
      forall url, In url added ->
        Prompt.has_http_scheme url = true /\
        url <> "" /\
        exists text, In (Prompt.Line text) inputs /\ url = strip text.
Proof.
  induction inputs as [|[text|] rest IH]; intros urls0 urls H; cbn [Prompt.interactive_mode] in H.
  - discriminate H.
  - cbv zeta in H. destruct (strip text) as [|c s] eqn:Hstrip.
    + injection H as <-. exists []. rewrite app_nil_r. split; [reflexivity|intros ? []].
    + destruct (Prompt.has_http_scheme (String c s)) eqn:Hhttp.
      * destruct (IH _ _ H) as (added & -> & Hadded).
        exists (String c s :: added). rewrite <- app_assoc. split; [reflexivity|].
        intros url [<-|Hin].
        -- split; [exact Hhttp|]. split; [discriminate|].
           exists text. split; [now left|now rewrite Hstrip].
        -- destruct (Hadded url Hin) as (H1 & H2 & t & Ht & Hu).
           split; [exact H1|]. split; [exact H2|]. exists t. split; [now right|exact Hu].
      * destruct (IH _ _ H) as (added & -> & Hadded).
        exists added. split; [reflexivity|].
        intros url Hin. destruct (Hadded url Hin) as (H1 & H2 & t & Ht & Hu).
        split; [exact H1|]. split; [exact H2|]. exists t. split; [now right|exact Hu].
  - injection H as <-. exists []. rewrite app_nil_r. split; [reflexivity|intros ? []].
Qed.

(** X22: what the interactive mode collects.  Every URL it returns is
    a line of the input, stripped, that is not empty and starts with
    [http://] or [https://], and they come in the order of the input.
    Nothing is read after the first blank line. *)
Theorem interactive_mode_accepts_only_http
        (before after : list Prompt.input_event) (blank : string) :
  strip blank = "" ->
  (forall urls,
      Prompt.interactive_mode (before ++ Prompt.Line blank :: after) [] = Returns urls ->
      forall url, In url urls ->
        Prompt.has_http_scheme url = true /\
        url <> "" /\
        exists text, In (Prompt.Line text) before /\ url = strip text) /\
  Prompt.interactive_mode (before ++ Prompt.Line blank :: after) []
  = Prompt.interactive_mode (before ++ [Prompt.Line blank]) [].
Proof.
  intros Hblank.
  assert (Hcut : forall urls0,
             Prompt.interactive_mode (before ++ Prompt.Line blank :: after) urls0
             = Prompt.interactive_mode (before ++ [Prompt.Line blank]) urls0).
  { induction before as [|[text|] before IH]; intros urls0; cbn [app Prompt.interactive_mode].
    - cbv zeta. now rewrite Hblank.
    - cbv zeta. destruct (strip text); [reflexivity|].
      destruct (Prompt.has_http_scheme _); apply IH.
    - reflexivity. }
  split; [|apply Hcut].
  intros urls H url Hin. rewrite Hcut in H.
  destruct (interactive_mode_collects _ _ _ H) as (added & -> & Hadded).
  destruct (Hadded url Hin) as (H1 & H2 & text & Htext & Hurl).
  split; [exact H1|]. split; [exact H2|]. exists text. split; [|exact Hurl].
  apply in_app_or in Htext. destruct Htext as [Htext|[Heq|[]]]; [exact Htext|].
  injection Heq as <-. rewrite Hblank in Hurl. now elim H2.
Qed.

Lemma interactive_mode_accepts_only_http_witness :
  Prompt.interactive_mode
    [ Prompt.Line "  https://example.com/a.mp4 "; Prompt.Line "ftp://example.com/b";
      Prompt.Line "http://youtube.com/watch"; Prompt.Line "   ";
      Prompt.Line "https://vimeo.com/1" ] []
  = Prompt.interactive_mode
      [ Prompt.Line "  https://example.com/a.mp4 "; Prompt.Line "ftp://example.com/b";
        Prompt.Line "http://youtube.com/watch"; Prompt.Line "   " ] [].
Proof.
  exact (proj2 (interactive_mode_accepts_only_http
                  [ Prompt.Line "  https://example.com/a.mp4 ";
                    Prompt.Line "ftp://example.com/b";
                    Prompt.Line "http://youtube.com/watch" ]
                  [ Prompt.Line "https://vimeo.com/1" ] "   " eq_refl)).
Defined.

(** X23: the two prompts read the same URLs.  When the prompt of the
    [analyze] command returns a list, the interactive mode returns the
    same list on the same input; when the input runs out, both raise.
    They differ on an interrupt: the command stops without a list, the
    interactive mode returns what it had collected. *)
Theorem prompts_agree (inputs : list Prompt.input_event) :
  forall collected,
    match Prompt.analyze_prompt inputs collected with
    | Returns (Some urls) => Prompt.interactive_mode inputs collected = Returns urls
    | Returns None =>
        In Prompt.KeyboardInterrupt inputs /\
        exists urls, Prompt.interactive_mode inputs collected = Returns urls
    | Raises e => Prompt.interactive_mode inputs collected = Raises e
    end.
Proof.
  induction inputs as [|[text|] rest IH]; intros collected;
    cbn [Prompt.analyze_prompt Prompt.interactive_mode].
  - reflexivity.
  - cbv zeta. destruct (strip text) as [|c s]; [reflexivity|].
    destruct (Prompt.has_http_scheme (String c s)).
    + specialize (IH (collected ++ [String c s])%list).
      destruct (Prompt.analyze_prompt rest _) as [[urls|]|e]; try exact IH.
      destruct IH as [Hin Hex]. split; [now right|exact Hex].
    + specialize (IH collected).
      destruct (Prompt.analyze_prompt rest _) as [[urls|]|e]; try exact IH.
      destruct IH as [Hin Hex]. split; [now right|exact Hex].
  - split; [now left|]. now exists collected.
Qed.

Lemma startswith_split (s p : string) :
  startswith s p = true -> s = p ++ drop (String.length p) s.
Proof.
  revert s. induction p as [|a p IH]; intros s H; [now destruct s|].
  destruct s as [|b s]; cbn [startswith] in H; [discriminate H|].
  apply andb_true_iff in H. destruct H as [Hab Hp].
  apply Ascii.eqb_eq in Hab. subst b. simpl. now rewrite <- (IH s Hp).
Qed.

Lemma filter_append (f : ascii -> bool) (a b : string) :
  filter f (a ++ b) = filter f a ++ filter f b.
Proof.
  induction a as [|c a IH]; simpl; [reflexivity|].
  destruct (f c); simpl; now rewrite IH.
Qed.

(** The scheme [urlparse] finds in a text that begins with a scheme of
    letters followed by [://]. *)
Lemma urlparse_scheme_http (rest : string) (parsed : UrlParse.ParseResult) :
  UrlParse.urlparse ("http://" ++ rest) = Returns parsed ->
  UrlParse.scheme parsed = "http".
Proof.
  unfold UrlParse.urlparse, UrlParse.urlsplit.
  change (lstrip UrlParse.is_c0_or_space ("http://" ++ rest)) with ("http://" ++ rest).
  rewrite filter_append.
  change (filter (fun c => negb (UrlParse.is_unsafe c)) "http://") with "http://".
  generalize (filter (fun c => negb (UrlParse.is_unsafe c)) rest). intros r.
  change (UrlParse.split_scheme ("http://" ++ r)) with ("http", "//" ++ r).
  cbv beta iota.
  destruct (UrlParse.split_netloc ("//" ++ r)) as [netloc url]. cbv beta iota.
  destruct (UrlParse.unbalanced_brackets netloc); [discriminate|].
  destruct (UrlParse.split_once "#" url) as [url1 fragment]. cbv beta iota.
  destruct (UrlParse.split_once "?" url1) as [url2 query]. cbv beta iota.
  destruct (if (mem "http" UrlParse.uses_params && char_in ";" url2)%bool
            then UrlParse._splitparams url2 else (url2, "")) as [path params].
  intros [= <-]. reflexivity.
Qed.

Lemma urlparse_scheme_https (rest : string) (parsed : UrlParse.ParseResult) :
  UrlParse.urlparse ("https://" ++ rest) = Returns parsed ->
  UrlParse.scheme parsed = "https".
Proof.
  unfold UrlParse.urlparse, UrlParse.urlsplit.
  change (lstrip UrlParse.is_c0_or_space ("https://" ++ rest)) with ("https://" ++ rest).
  rewrite filter_append.
  change (filter (fun c => negb (UrlParse.is_unsafe c)) "https://") with "https://".
  generalize (filter (fun c => negb (UrlParse.is_unsafe c)) rest). intros r.
  change (UrlParse.split_scheme ("https://" ++ r)) with ("https", "//" ++ r).
  cbv beta iota.
  destruct (UrlParse.split_netloc ("//" ++ r)) as [netloc url]. cbv beta iota.
  destruct (UrlParse.unbalanced_brackets netloc); [discriminate|].
  destruct (UrlParse.split_once "#" url) as [url1 fragment]. cbv beta iota.
  destruct (UrlParse.split_once "?" url1) as [url2 query]. cbv beta iota.
  destruct (if (mem "https" UrlParse.uses_params && char_in ";" url2)%bool
            then UrlParse._splitparams url2 else (url2, "")) as [path params].
  intros [= <-]. reflexivity.
Qed.

(** X24: the prompt and the parser agree on the scheme: a URL that the
    prompt accepts and [urlparse] parses has the scheme [http] or
    [https], whatever follows. *)
Theorem prompt_url_scheme (url : string) (parsed : UrlParse.ParseResult) :
  Prompt.has_http_scheme url = true ->
  UrlParse.urlparse url = Returns parsed ->
  (startswith url "http://" = true /\ UrlParse.scheme parsed = "http") \/
  (startswith url "https://" = true /\ UrlParse.scheme parsed = "https").
Proof.
  unfold Prompt.has_http_scheme. intros H Hparsed.
  destruct (startswith url "http://") eqn:Hhttp.
  - left. split; [reflexivity|].
    rewrite (startswith_split _ _ Hhttp) in Hparsed.
    exact (urlparse_scheme_http _ _ Hparsed).
  - simpl in H. right. split; [exact H|].
    rewrite (startswith_split _ _ H) in Hparsed.
    exact (urlparse_scheme_https _ _ Hparsed).
Qed.

Lemma prompt_url_scheme_witness :
  UrlParse.scheme
    {| UrlParse.scheme := "https"; UrlParse.netloc := "vimeo.com";
       UrlParse.path := "/1"; UrlParse.params := ""; UrlParse.query := "";
       UrlParse.fragment := "" |} = "https".
Proof.
  destruct (prompt_url_scheme "https://vimeo.com/1" _ eq_refl eq_refl)
    as [[H _]|[_ H]]; [discriminate H|exact H].
Defined.

(* ===================================================================== *)
(** * Further facts: the two checks of the Python version *)
(* ===================================================================== *)

(** X25: the two version checks.  The check of [cli.py] accepts a
    version exactly when it is 3.9 or later, a major version above 3
    included; the check of [setup.py] accepts what the other accepts
    except the major versions above 3. *)
Theorem version_checks_compared (version : VersionCheck.version_info) :
  (VersionCheck.python_ok version = true <->
   3 < VersionCheck.major version \/
   (VersionCheck.major version = 3 /\ 9 <= VersionCheck.minor version)) /\
  (VersionCheck.check_python_version version = true <->
   VersionCheck.python_ok version = true /\ VersionCheck.major version <= 3).
Proof.
  unfold VersionCheck.python_ok, VersionCheck.check_python_version, VersionCheck.tuple_ge.
  destruct (Z.eqb_spec (VersionCheck.major version) 3);
    destruct (Z.eqb_spec (VersionCheck.minor version) 9);
    destruct (Z.ltb_spec 9 (VersionCheck.minor version));
    destruct (Z.leb_spec 9 (VersionCheck.minor version));
    destruct (Z.ltb_spec 3 (VersionCheck.major version));
    cbn [andb]; try lia;
    (split; split; intros H; try reflexivity; try discriminate H; try lia;
     try (split; [reflexivity|lia]); try (destruct H as [H _]; discriminate H)).
Qed.

(* ===================================================================== *)
(** * Further facts: the site profile of a URL *)
(* ===================================================================== *)

(** X26: a leading ["www."] does not matter for the site profile: two
    URLs whose network locations differ by a leading ["www."] get the
    same profile; the profile is looked up under the network location
    as it is written, without a change of case. *)
Theorem get_site_config_ignores_leading_www
        (config : GlobalConfig.t) (url1 url2 : string)
        (parsed1 parsed2 : UrlParse.ParseResult) :
  UrlParse.urlparse url1 = Returns parsed1 ->
  UrlParse.urlparse url2 = Returns parsed2 ->
  UrlParse.netloc parsed1 = "www." ++ UrlParse.netloc parsed2 ->
  SiteProfiles._get_site_config config url1 = SiteProfiles._get_site_config config url2 /\
  SiteProfiles._get_site_config config url2
  = Returns (lookup (replace (UrlParse.netloc parsed2) "www." "")
                    (GlobalConfig.sites config)).
Proof.
  intros H1 H2 Hwww. unfold SiteProfiles._get_site_config.
  rewrite H1, H2. cbn [bind]. rewrite Hwww.
  assert (Hlead : startswith ("www." ++ UrlParse.netloc parsed2) "www." = true)
    by (simpl; now destruct (UrlParse.netloc parsed2)).
  rewrite (replace_leading_www _ Hlead).
  split; reflexivity.
Qed.

Lemma get_site_config_ignores_leading_www_witness :
  let config :=
    {| GlobalConfig.sites := [("example-site.com", SiteConfig.default)];
       GlobalConfig.output_directory := "./downloads";
       GlobalConfig.nordvpn_enabled := false;
       GlobalConfig.ip_rotation_interval_min := 300;
       GlobalConfig.ip_rotation_interval_max := 1800;
       GlobalConfig.headless := true;
       GlobalConfig.timeout := 30;
       GlobalConfig.concurrent_downloads := 3;
       GlobalConfig.retry_attempts := 3;
       GlobalConfig.log_level := "INFO" |} in
  SiteProfiles._get_site_config config "https://www.example-site.com/video/1"
  = SiteProfiles._get_site_config config "https://example-site.com/video/2".
Proof.
  intros config.
  exact (proj1 (get_site_config_ignores_leading_www config
                  "https://www.example-site.com/video/1"
                  "https://example-site.com/video/2"
                  {| UrlParse.scheme := "https"; UrlParse.netloc := "www.example-site.com";
                     UrlParse.path := "/video/1"; UrlParse.params := "";
                     UrlParse.query := ""; UrlParse.fragment := "" |}
                  {| UrlParse.scheme := "https"; UrlParse.netloc := "example-site.com";
                     UrlParse.path := "/video/2"; UrlParse.params := "";
                     UrlParse.query := ""; UrlParse.fragment := "" |}
                  eq_refl eq_refl eq_refl)).
Defined.
